(** * Dialog: open/close lifecycle and dismissal semantics

    A shallow embedding of the [Dialog] React component
    (src/components/Dialog/Dialog.tsx): its props and their destructuring
    defaults, the element tree it renders, its two [useEffect] hooks run
    against an explicit model of the document (body overflow style, keydown
    listeners), and the dispatch of click and keydown events to the handlers
    the component installs. *)

From Stdlib Require Import String List Bool Arith Lia ZArith.
From Stdlib Require Import Ascii DecimalString.
Import ListNotations.
Local Open Scope string_scope.

(** ** Values shared by props and rendering *)

(** A host function is known by its reference only: React compares
    dependencies with [Object.is], and all the component does with [onClose]
    is call it. *)
Definition Callback := nat.

(** [React.ReactNode], as far as the component looks at it: it tests nodes for
    truthiness and otherwise hands them to React unchanged. *)
Inductive ReactNode :=
| RNull                      (* null or undefined *)
| RBool (b : bool)
| RText (s : string)
| RNumber (z : Z)
| RElement (key : nat).      (* an element built by the caller *)

Definition truthy (n : ReactNode) : bool :=
  match n with
  | RNull => false
  | RBool b => b
  | RText s => negb (String.eqb s "")
  | RNumber z => negb (Z.eqb z 0)
  | RElement _ => true
  end.

(** JavaScript [a || b] on nodes. *)
Definition js_or (a b : ReactNode) : ReactNode :=
  if truthy a then a else b.

Inductive DialogSize := small | medium | large | fullscreen.

Inductive MaxWidth := MaxWidthPx (n : Z) | MaxWidthCss (s : string).

Definition CSSProperties := list (string * string).

Fixpoint css_lookup (k : string) (st : CSSProperties) : option string :=
  match st with
  | [] => None
  | (k', v) :: rest => if String.eqb k k' then Some v else css_lookup k rest
  end.

(** ** Props *)

Module Props.

(** [DialogProps]: an optional prop that the caller omits is [None]
    ([undefined]); optional nodes are [RNull] when omitted. *)
Record t := {
  open : bool;
  title : ReactNode;
  children : ReactNode;
  actions : ReactNode;
  size : option DialogSize;
  showCloseButton : option bool;
  closeOnOutsideClick : option bool;
  closeOnEscape : option bool;
  onClose : Callback;
  className : option string;
  style : option CSSProperties;
  showBackdrop : option bool;
  fullWidth : option bool;
  maxWidth : option MaxWidth;
  disableBodyScroll : option bool;
  usePortal : option bool;
  data_testid : option string
}.

(** The props of [<Dialog open={o} onClose={f}>{c}</Dialog>]: the required
    ones given, every optional one omitted. *)
Definition required (o : bool) (c : ReactNode) (f : Callback) : t :=
  {| open := o; title := RNull; children := c; actions := RNull;
     size := None; showCloseButton := None; closeOnOutsideClick := None;
     closeOnEscape := None; onClose := f; className := None; style := None;
     showBackdrop := None; fullWidth := None; maxWidth := None;
     disableBodyScroll := None; usePortal := None; data_testid := None |}.

End Props.

(** A destructuring default [x = d] applies exactly when the prop is
    [undefined]. *)
Definition default {A : Type} (d : A) (x : option A) : A :=
  match x with
  | Some v => v
  | None => d
  end.

(** ** The rendered tree *)

Inductive Component :=
| DialogBackdrop
| DialogContainer
| DialogHeader
| DialogTitle
| CloseButton
| DialogContent
| DialogActions.

(** The three click handlers the component attaches, as closures over the
    bindings they capture. *)
Inductive ClickHandler :=
| handleBackdropClick (closeOnOutsideClick : bool) (onClose : Callback)
| stopPropagation                       (* (e) => e.stopPropagation() *)
| callOnClose (onClose : Callback).     (* onClick={onClose} *)

Record Attrs := {
  a_style : option CSSProperties;
  a_onClick : option ClickHandler;
  a_className : option string;
  a_size : option DialogSize;            (* $size *)
  a_fullWidth : option bool;             (* $fullWidth *)
  a_maxWidth : option MaxWidth;          (* $maxWidth *)
  a_testid : option string;              (* data-testid *)
  a_ariaLabel : option string            (* aria-label *)
}.

Definition noAttrs : Attrs :=
  {| a_style := None; a_onClick := None; a_className := None; a_size := None;
     a_fullWidth := None; a_maxWidth := None; a_testid := None;
     a_ariaLabel := None |}.

#[local] Unset Elimination Schemes.
Inductive VNode :=
| Styled (c : Component) (attrs : Attrs) (kids : list VNode)
| Slot (n : ReactNode)          (* a caller's node placed in the tree *)
| Text (s : string).
#[local] Set Elimination Schemes.

(** JSX [{a && <X/>}]: the element when [a] is truthy, else [a] itself. *)
Definition jsx_and (a : ReactNode) (v : VNode) : VNode :=
  if truthy a then v else Slot a.

Inductive Rendered :=
| RenderNull
| Inline (content : VNode)
| Portal (content : VNode) (container : string).

(** ** The document and React's effect bookkeeping *)

(** A [handleKeyDown] closure: the function object (its reference) and the
    bindings of the render that created it. *)
Record KeyListener := {
  fn_ref : nat;
  k_closeOnEscape : bool;
  k_open : bool;
  k_onClose : Callback
}.

(** What the component touches of the environment: [document.body.style.overflow],
    the document's keydown listeners in registration order, and the next
    unused function reference. *)
Record World := {
  body_overflow : string;
  keydown_listeners : list KeyListener;
  next_ref : nat
}.

Definition newWorld (overflow : string) : World :=
  {| body_overflow := overflow; keydown_listeners := []; next_ref := 0 |}.

(** The cleanup functions returned by the two effects. *)
Inductive Cleanup :=
| clearOverflow (disableBodyScroll : bool)
| removeKeyDown (h : KeyListener).

(** Hook state React keeps for one mounted [Dialog]: for each effect the
    dependency array of its last run and the cleanup that run returned. *)
Record Fiber := {
  scroll_deps : bool * bool;                 (* [open, disableBodyScroll] *)
  scroll_cleanup : Cleanup;
  key_deps : bool * Callback * bool;         (* [closeOnEscape, onClose, open] *)
  key_cleanup : Cleanup
}.

Definition set_overflow (v : string) (w : World) : World :=
  {| body_overflow := v; keydown_listeners := keydown_listeners w;
     next_ref := next_ref w |}.

Definition same_fn (h h' : KeyListener) : bool :=
  Nat.eqb (fn_ref h) (fn_ref h').

(** [document.addEventListener('keydown', h)]: a function already registered
    is not registered twice. *)
Definition addEventListener (h : KeyListener) (w : World) : World :=
  if existsb (same_fn h) (keydown_listeners w) then w
  else {| body_overflow := body_overflow w;
          keydown_listeners := keydown_listeners w ++ [h];
          next_ref := next_ref w |}.

(** [document.removeEventListener('keydown', h)]. *)
Definition removeEventListener (h : KeyListener) (w : World) : World :=
  {| body_overflow := body_overflow w;
     keydown_listeners :=
       filter (fun h' => negb (same_fn h h')) (keydown_listeners w);
     next_ref := next_ref w |}.

Definition runCleanup (c : Cleanup) (w : World) : World :=
  match c with
  | clearOverflow d => if d then set_overflow "" w else w
  | removeKeyDown h => removeEventListener h w
  end.

(** ** The component *)

Module Dialog.

(** The bindings of the destructured parameter, defaults applied. *)
Record Bindings := {
  open : bool;
  title : ReactNode;
  children : ReactNode;
  actions : ReactNode;
  size : DialogSize;
  showCloseButton : bool;
  closeOnOutsideClick : bool;
  closeOnEscape : bool;
  onClose : Callback;
  className : option string;
  style : option CSSProperties;
  showBackdrop : bool;
  fullWidth : bool;
  maxWidth : option MaxWidth;
  disableBodyScroll : bool;
  usePortal : bool;
  dataTestId : option string
}.

Definition destructure (p : Props.t) : Bindings :=
  {| open := Props.open p;
     title := Props.title p;
     children := Props.children p;
     actions := Props.actions p;
     size := default medium (Props.size p);
     showCloseButton := default true (Props.showCloseButton p);
     closeOnOutsideClick := default true (Props.closeOnOutsideClick p);
     closeOnEscape := default true (Props.closeOnEscape p);
     onClose := Props.onClose p;
     className := Props.className p;
     style := Props.style p;
     showBackdrop := default true (Props.showBackdrop p);
     fullWidth := default false (Props.fullWidth p);
     maxWidth := Props.maxWidth p;
     disableBodyScroll := default true (Props.disableBodyScroll p);
     usePortal := default true (Props.usePortal p);
     dataTestId := Props.data_testid p |}.

(** The JSX bound to [dialogContent]. *)
Definition dialogContent (b : Bindings) : VNode :=
  Styled DialogBackdrop
    {| a_style := Some [("display", if showBackdrop b then "flex" else "none")];
       a_onClick := Some (handleBackdropClick (closeOnOutsideClick b) (onClose b));
       a_className := None; a_size := None; a_fullWidth := None;
       a_maxWidth := None; a_testid := None; a_ariaLabel := None |}
    [ Styled DialogContainer
        {| a_style := style b;
           a_onClick := Some stopPropagation;
           a_className := className b;
           a_size := Some (size b);
           a_fullWidth := Some (fullWidth b);
           a_maxWidth := maxWidth b;
           a_testid := dataTestId b;
           a_ariaLabel := None |}
        [ jsx_and (js_or (title b) (RBool (showCloseButton b)))
            (Styled DialogHeader noAttrs
               [ jsx_and (title b) (Styled DialogTitle noAttrs [Slot (title b)]);
                 jsx_and (RBool (showCloseButton b))
                   (Styled CloseButton
                      {| a_style := None;
                         a_onClick := Some (callOnClose (onClose b));
                         a_className := None; a_size := None;
                         a_fullWidth := None; a_maxWidth := None;
                         a_testid := None; a_ariaLabel := Some "Close" |}
                      [Text "✕"]) ]);
          Styled DialogContent noAttrs [Slot (children b)];
          jsx_and (actions b) (Styled DialogActions noAttrs [Slot (actions b)]) ] ].

(** What the function component returns. *)
Definition render (b : Bindings) : Rendered :=
  if negb (open b) then RenderNull
  else if usePortal b then Portal (dialogContent b) "document.body"
  else Inline (dialogContent b).

(** First effect: the body-scroll lock. Returns the world after the effect
    body and the cleanup closure. *)
Definition scrollEffect (b : Bindings) (w : World) : World * Cleanup :=
  (if disableBodyScroll b && open b then set_overflow "hidden" w else w,
   clearOverflow (disableBodyScroll b)).

(** Second effect: a fresh [handleKeyDown] is registered on the document. *)
Definition keyEffect (b : Bindings) (w : World) : World * Cleanup :=
  let h := {| fn_ref := next_ref w;
              k_closeOnEscape := closeOnEscape b;
              k_open := open b;
              k_onClose := onClose b |} in
  let w1 := {| body_overflow := body_overflow w;
               keydown_listeners := keydown_listeners w;
               next_ref := S (next_ref w) |} in
  (addEventListener h w1, removeKeyDown h).

Definition scrollDeps (b : Bindings) : bool * bool :=
  (open b, disableBodyScroll b).

Definition keyDeps (b : Bindings) : bool * Callback * bool :=
  (closeOnEscape b, onClose b, open b).

Definition scroll_deps_eq (d d' : bool * bool) : bool :=
  Bool.eqb (fst d) (fst d') && Bool.eqb (snd d) (snd d').

Definition key_deps_eq (d d' : bool * Callback * bool) : bool :=
  Bool.eqb (fst (fst d)) (fst (fst d'))
  && Nat.eqb (snd (fst d)) (snd (fst d'))
  && Bool.eqb (snd d) (snd d').

(** First commit of the component: both effects run, in source order. *)
Definition mount (b : Bindings) (w : World) : Fiber * World :=
  let (w1, c1) := scrollEffect b w in
  let (w2, c2) := keyEffect b w1 in
  ({| scroll_deps := scrollDeps b; scroll_cleanup := c1;
      key_deps := keyDeps b; key_cleanup := c2 |}, w2).

(** A later commit: an effect whose dependencies changed has the cleanup of
    its previous run called, then runs again; React calls all such cleanups
    before any of the effect bodies. *)
Definition update (b : Bindings) (f : Fiber) (w : World) : Fiber * World :=
  let rerun1 := negb (scroll_deps_eq (scroll_deps f) (scrollDeps b)) in
  let rerun2 := negb (key_deps_eq (key_deps f) (keyDeps b)) in
  let w1 := if rerun1 then runCleanup (scroll_cleanup f) w else w in
  let w2 := if rerun2 then runCleanup (key_cleanup f) w1 else w1 in
  let (w3, c1) := if rerun1 then scrollEffect b w2 else (w2, scroll_cleanup f) in
  let (w4, c2) := if rerun2 then keyEffect b w3 else (w3, key_cleanup f) in
  ({| scroll_deps := scrollDeps b; scroll_cleanup := c1;
      key_deps := keyDeps b; key_cleanup := c2 |}, w4).

(** Teardown: every effect's last cleanup runs. *)
Definition unmount (f : Fiber) (w : World) : World :=
  runCleanup (key_cleanup f) (runCleanup (scroll_cleanup f) w).

(** The host renders the component with [p0], then re-renders it with each
    of [ps] in turn. *)
Fixpoint updates (ps : list Props.t) (st : Fiber * World) : Fiber * World :=
  match ps with
  | [] => st
  | p :: rest => updates rest (update (destructure p) (fst st) (snd st))
  end.

Definition lifecycle (p0 : Props.t) (ps : list Props.t) (w : World)
  : Fiber * World :=
  updates ps (mount (destructure p0) w).

End Dialog.

(** ** Events *)

(** The body of [handleKeyDown], for an event whose [key] is [key]: the
    callbacks it calls. *)
Definition handleKeyDown (h : KeyListener) (key : string) : list Callback :=
  if k_closeOnEscape h && String.eqb key "Escape" && k_open h
  then [k_onClose h] else [].

(** A keydown event reaching the document: every registered listener runs, in
    registration order. The result is the sequence of host callbacks called. *)
Definition dispatchKeyDown (key : string) (w : World) : list Callback :=
  flat_map (fun h => handleKeyDown h key) (keydown_listeners w).

Definition onClickOf (v : VNode) : option ClickHandler :=
  match v with
  | Styled _ a _ => a_onClick a
  | _ => None
  end.

(** One click handler run with [atTarget] telling whether
    [event.target === event.currentTarget]: the callbacks it calls and whether
    it stops propagation. *)
Definition runHandler (h : ClickHandler) (atTarget : bool)
  : list Callback * bool :=
  match h with
  | handleBackdropClick c f => (if c && atTarget then [f] else [], false)
  | stopPropagation => ([], true)
  | callOnClose f => ([f], false)
  end.

(** Bubbling of a click along [chain], the target first and then its
    ancestors up to the root: the handlers that run, each with its
    [atTarget] flag. *)
Fixpoint bubble (atTarget : bool) (chain : list VNode)
  : list (ClickHandler * bool) :=
  match chain with
  | [] => []
  | v :: up =>
      match onClickOf v with
      | None => bubble false up
      | Some h =>
          (h, atTarget) ::
          (if snd (runHandler h atTarget) then [] else bubble false up)
      end
  end.

(** The node at [path] (child indices from the root) with its ancestors,
    innermost first. *)
Fixpoint ancestry (path : list nat) (v : VNode) (above : list VNode)
  : option (list VNode) :=
  match path with
  | [] => Some (v :: above)
  | i :: rest =>
      match v with
      | Styled _ _ kids =>
          match nth_error kids i with
          | Some k => ancestry rest k (v :: above)
          | None => None
          end
      | _ => None
      end
  end.

(** Only elements are event targets: a styled element of the component, or an
    element supplied by the caller. *)
Definition isElement (v : VNode) : bool :=
  match v with
  | Styled _ _ _ => true
  | Slot (RElement _) => true
  | _ => false
  end.

Definition contentOf (r : Rendered) : option VNode :=
  match r with
  | RenderNull => None
  | Inline v => Some v
  | Portal v _ => Some v
  end.

(** The chain a click on the element at [path] bubbles along; [None] when
    nothing is rendered or [path] does not lead to an element. *)
Definition clickChain (r : Rendered) (path : list nat) : option (list VNode) :=
  match contentOf r with
  | None => None
  | Some root =>
      match ancestry path root [] with
      | Some (t :: up) => if isElement t then Some (t :: up) else None
      | _ => None
      end
  end.

Definition handlersRun (r : Rendered) (path : list nat)
  : option (list (ClickHandler * bool)) :=
  option_map (bubble true) (clickChain r path).

(** The host callbacks called by a run of handlers, in order. *)
Definition callsOf (hs : list (ClickHandler * bool)) : list Callback :=
  flat_map (fun hr => fst (runHandler (fst hr) (snd hr))) hs.

(** A click on the element at [path]: the host callbacks called by the
    component's handlers. *)
Definition dispatchClick (r : Rendered) (path : list nat)
  : option (list Callback) :=
  option_map callsOf (handlersRun r path).

Definition targetOf (r : Rendered) (path : list nat) : option VNode :=
  option_map (fun ch => hd (Text "") ch) (clickChain r path).

Definition componentOf (v : VNode) : option Component :=
  match v with
  | Styled c _ _ => Some c
  | _ => None
  end.

(** Paths of the elements the component always places at the same spot. *)
Definition backdropPath : list nat := [].
Definition panelPath : list nat := [0].
Definition closeButtonPath : list nat := [0; 0; 1].

(** ** Visibility *)

Definition displayNone (a : Attrs) : bool :=
  match a_style a with
  | Some st =>
      match css_lookup "display" st with
      | Some v => String.eqb v "none"
      | None => false
      end
  | None => false
  end.

(** What React puts in the DOM for a caller's node: nothing for null, booleans
    and the empty string. *)
Definition slotRenders (n : ReactNode) : bool :=
  match n with
  | RNull => false
  | RBool _ => false
  | RText s => negb (String.eqb s "")
  | RNumber _ => true
  | RElement _ => true
  end.

(** The nodes that generate a box, in document order: an element whose inline
    style has [display: none] generates none, and neither does anything below
    it. *)
Fixpoint boxes (v : VNode) : list VNode :=
  match v with
  | Styled c a kids =>
      if displayNone a then [] else v :: flat_map boxes kids
  | Slot n => if slotRenders n then [v] else []
  | Text _ => [v]
  end.

Definition visibleBoxes (r : Rendered) : list VNode :=
  match contentOf r with
  | None => []
  | Some v => boxes v
  end.

(** All nodes of a tree, in document order. *)
Fixpoint nodes (v : VNode) : list VNode :=
  match v with
  | Styled _ _ kids => v :: flat_map nodes kids
  | _ => [v]
  end.

(** ** Invariant of a mounted dialog *)

(** The listener created by a render with bindings [b], as function [r]. *)
Definition ownListener (b : Dialog.Bindings) (r : nat) : KeyListener :=
  {| fn_ref := r;
     k_closeOnEscape := Dialog.closeOnEscape b;
     k_open := Dialog.open b;
     k_onClose := Dialog.onClose b |}.

(** [Mounted b st]: in state [st] of a document that had no keydown listener
    before the dialog was mounted, the hook state and the document agree with
    the bindings [b] of the latest render. *)
Inductive Mounted (b : Dialog.Bindings) (st : Fiber * World) : Prop :=
| MountedAs (r : nat)
    (m_listeners : keydown_listeners (snd st) = [ownListener b r])
    (m_key_cleanup : key_cleanup (fst st) = removeKeyDown (ownListener b r))
    (m_fresh : r < next_ref (snd st))
    (m_key_deps : key_deps (fst st) = Dialog.keyDeps b)
    (m_scroll_deps : scroll_deps (fst st) = Dialog.scrollDeps b)
    (m_scroll_cleanup :
       scroll_cleanup (fst st) = clearOverflow (Dialog.disableBodyScroll b)).

(** The props of the latest render of a lifecycle. *)
Fixpoint latest (p0 : Props.t) (ps : list Props.t) : Props.t :=
  match ps with
  | [] => p0
  | p :: rest => latest p rest
  end.

Definition everOpen (ps : list Props.t) : bool := existsb Props.open ps.

Definition scrollLocked (p : Props.t) : bool :=
  Dialog.disableBodyScroll (Dialog.destructure p).

(** The same props with [usePortal] replaced. *)
Definition withUsePortal (u : option bool) (p : Props.t) : Props.t :=
  {| Props.open := Props.open p; Props.title := Props.title p;
     Props.children := Props.children p; Props.actions := Props.actions p;
     Props.size := Props.size p;
     Props.showCloseButton := Props.showCloseButton p;
     Props.closeOnOutsideClick := Props.closeOnOutsideClick p;
     Props.closeOnEscape := Props.closeOnEscape p;
     Props.onClose := Props.onClose p; Props.className := Props.className p;
     Props.style := Props.style p; Props.showBackdrop := Props.showBackdrop p;
     Props.fullWidth := Props.fullWidth p; Props.maxWidth := Props.maxWidth p;
     Props.disableBodyScroll := Props.disableBodyScroll p;
     Props.usePortal := u; Props.data_testid := Props.data_testid p |}.

Definition isBackdropHandler (h : ClickHandler) : bool :=
  match h with
  | handleBackdropClick _ _ => true
  | _ => false
  end.

(** The document a lifecycle ends in, and the bindings of its latest render,
    for a dialog mounted into a document whose body overflow is [s0]. *)
Definition finalWorld (s0 : string) (p0 : Props.t) (ps : list Props.t) : World :=
  snd (Dialog.lifecycle p0 ps (newWorld s0)).

Definition current (p0 : Props.t) (ps : list Props.t) : Dialog.Bindings :=
  Dialog.destructure (latest p0 ps).

(** Body overflow after a lifecycle in which body-scroll locking stays
    enabled: [o] tells whether the latest render is open, [seen] whether any
    render was. *)
Definition expectedOverflow (s0 : string) (seen o : bool) : string :=
  if o then "hidden" else if seen then "" else s0.

(** ** Sample inputs *)

Definition pOpen : Props.t := Props.required true (RElement 1) 7.
Definition pClosed : Props.t := Props.required false (RElement 1) 7.

(** Open, with a close button, Escape and outside clicks switched off. *)
Definition pNoDismiss : Props.t :=
  {| Props.open := true; Props.title := RText "Dialog Title";
     Props.children := RElement 1; Props.actions := RNull;
     Props.size := None; Props.showCloseButton := Some true;
     Props.closeOnOutsideClick := Some false;
     Props.closeOnEscape := Some false; Props.onClose := 7;
     Props.className := None; Props.style := None;
     Props.showBackdrop := None; Props.fullWidth := None;
     Props.maxWidth := None; Props.disableBodyScroll := None;
     Props.usePortal := None; Props.data_testid := None |}.

(** Open, with the backdrop switched off. *)
Definition pNoBackdrop : Props.t :=
  {| Props.open := true; Props.title := RText "No Backdrop";
     Props.children := RElement 1; Props.actions := RElement 2;
     Props.size := None; Props.showCloseButton := None;
     Props.closeOnOutsideClick := None; Props.closeOnEscape := None;
     Props.onClose := 7; Props.className := None; Props.style := None;
     Props.showBackdrop := Some false; Props.fullWidth := None;
     Props.maxWidth := None; Props.disableBodyScroll := None;
     Props.usePortal := None; Props.data_testid := None |}.

(** ** Panel dimensions *)

(** The values found in the style objects of [getSizeStyles]: strings, and
    the number [0]. *)
Inductive JsValue := JString (s : string) | JNumber (z : Z).



(** Truthiness of an optional boolean such as [fullWidth?]. *)
Definition truthyFlag (x : option bool) : bool :=
  match x with
  | Some true => true
  | _ => false
  end.

(** [getSizeStyles]: the style object as its entries, in key order. *)
Definition getSizeStyles (size : DialogSize) (fullWidth : option bool)
  : list (string * JsValue) :=
  match size with
  | small =>
      [("width", JString (if truthyFlag fullWidth then "100%" else "400px"));
       ("maxWidth", JString "90vw")]
  | large =>
      [("width", JString (if truthyFlag fullWidth then "100%" else "800px"));
       ("maxWidth", JString "90vw")]
  | fullscreen =>
      [("width", JString "100vw");
       ("height", JString "100vh");
       ("maxWidth", JString "100vw");
       ("maxHeight", JString "100vh");
       ("margin", JNumber 0);
       ("borderRadius", JNumber 0)]
  | medium =>
      [("width", JString (if truthyFlag fullWidth then "100%" else "600px"));
       ("maxWidth", JString "90vw")]
  end.





(** ** Teardown and tree shape *)

Definition scrollFree (p : Props.t) : bool := negb (scrollLocked p).

(** The document after the dialog of a lifecycle is unmounted. *)
Definition afterUnmount (s0 : string) (p0 : Props.t) (ps : list Props.t)
  : World :=
  Dialog.unmount (fst (Dialog.lifecycle p0 ps (newWorld s0)))
                 (finalWorld s0 p0 ps).


(** Open, with every way of dismissal switched off. *)
Definition pModal : Props.t :=
  {| Props.open := true; Props.title := RText "No Close Button";
     Props.children := RElement 1; Props.actions := RNull;
     Props.size := None; Props.showCloseButton := Some false;
     Props.closeOnOutsideClick := Some false;
     Props.closeOnEscape := Some false; Props.onClose := 7;
     Props.className := None; Props.style := None;
     Props.showBackdrop := None; Props.fullWidth := None;
     Props.maxWidth := None; Props.disableBodyScroll := None;
     Props.usePortal := None; Props.data_testid := None |}.

(** Closed and open, leaving the body scroll alone. *)
Definition pFreeClosed : Props.t :=
  {| Props.open := false; Props.title := RNull;
     Props.children := RElement 1; Props.actions := RNull;
     Props.size := None; Props.showCloseButton := None;
     Props.closeOnOutsideClick := None; Props.closeOnEscape := None;
     Props.onClose := 7; Props.className := None; Props.style := None;
     Props.showBackdrop := None; Props.fullWidth := None;
     Props.maxWidth := None; Props.disableBodyScroll := Some false;
     Props.usePortal := None; Props.data_testid := None |}.

Definition pFreeOpen : Props.t :=
  {| Props.open := true; Props.title := RNull;
     Props.children := RElement 1; Props.actions := RNull;
     Props.size := None; Props.showCloseButton := None;
     Props.closeOnOutsideClick := None; Props.closeOnEscape := None;
     Props.onClose := 7; Props.className := None; Props.style := None;
     Props.showBackdrop := None; Props.fullWidth := None;
     Props.maxWidth := None; Props.disableBodyScroll := Some false;
     Props.usePortal := None; Props.data_testid := None |}.

(** ** A document with other keydown listeners *)

(** Every function registered so far has a reference below the next unused
    one. *)
Definition wellFormed (w : World) : bool :=
  forallb (fun h => Nat.ltb (fn_ref h) (next_ref w)) (keydown_listeners w).

(** [MountedAmong others b st]: as [Mounted], in a document that held the
    listeners [others] before the dialog was mounted. *)
Inductive MountedAmong (others : list KeyListener) (b : Dialog.Bindings)
  (st : Fiber * World) : Prop :=
| MountedAmongAs (r : nat)
    (ma_listeners : keydown_listeners (snd st) = (others ++ [ownListener b r])%list)
    (ma_key_cleanup : key_cleanup (fst st) = removeKeyDown (ownListener b r))
    (ma_fresh : r < next_ref (snd st))
    (ma_others : Forall (fun h => fn_ref h < r) others)
    (ma_key_deps : key_deps (fst st) = Dialog.keyDeps b)
    (ma_scroll_deps : scroll_deps (fst st) = Dialog.scrollDeps b)
    (ma_scroll_cleanup :
       scroll_cleanup (fst st) = clearOverflow (Dialog.disableBodyScroll b)).

(** A document in which some other code listens for keys. *)
Definition wBusy : World :=
  {| body_overflow := "";
     keydown_listeners :=
       [{| fn_ref := 0; k_closeOnEscape := true; k_open := true;
           k_onClose := 3 |}];
     next_ref := 1 |}.

(** ** Commits *)

Module Commit.

(** The two phases of a commit for one mounted dialog rendered with new
    bindings [b]: first the cleanups of the effects whose dependencies
    changed, later the bodies of those effects. React runs the first phase
    for every component of the tree before the second phase of any. *)
Definition rerunScroll (b : Dialog.Bindings) (f : Fiber) : bool :=
  negb (Dialog.scroll_deps_eq (scroll_deps f) (Dialog.scrollDeps b)).

Definition rerunKey (b : Dialog.Bindings) (f : Fiber) : bool :=
  negb (Dialog.key_deps_eq (key_deps f) (Dialog.keyDeps b)).

Definition cleanups (b : Dialog.Bindings) (f : Fiber) (w : World) : World :=
  let w1 := if rerunScroll b f then runCleanup (scroll_cleanup f) w else w in
  if rerunKey b f then runCleanup (key_cleanup f) w1 else w1.

Definition effects (b : Dialog.Bindings) (f : Fiber) (w : World)
  : Fiber * World :=
  let (w3, c1) :=
    if rerunScroll b f then Dialog.scrollEffect b w else (w, scroll_cleanup f) in
  let (w4, c2) :=
    if rerunKey b f then Dialog.keyEffect b w3 else (w3, key_cleanup f) in
  ({| scroll_deps := Dialog.scrollDeps b; scroll_cleanup := c1;
      key_deps := Dialog.keyDeps b; key_cleanup := c2 |}, w4).

End Commit.

(** [Synced b f r]: the hook state [f] is that of a render with bindings
    [b], whose [handleKeyDown] is function [r]. *)
Definition Synced (b : Dialog.Bindings) (f : Fiber) (r : nat) : Prop :=
  key_cleanup f = removeKeyDown (ownListener b r) /\
  key_deps f = Dialog.keyDeps b /\
  scroll_deps f = Dialog.scrollDeps b /\
  scroll_cleanup f = clearOverflow (Dialog.disableBodyScroll b).

Definition pathEqb (p q : list nat) : bool :=
  if list_eq_dec Nat.eq_dec p q then true else false.

(** Where the caller's children and actions sit in the tree. *)
Definition contentPath : list nat := [0; 1; 0].
Definition actionsPath : list nat := [0; 2; 0].

(** ** The InteractiveDialog story *)

Module InteractiveDialog.

(** The story's [render] function is a component with one state variable,
    [isOpen]. Each of its renders creates a new [handleClose]; [renders]
    counts the re-renders so far and so names the latest one. *)
Record Host := {
  isOpen : bool;
  renders : nat;
  fiber : Fiber;
  world : World
}.

Definition handleClose (n : nat) : Callback := n.

(** The props the story passes to [Dialog]; [args] only holds [open],
    [children] and [onClose], all three overridden. *)
Definition dialogProps (o : bool) (n : nat) : Props.t :=
  {| Props.open := o; Props.title := RText "Interactive Dialog";
     Props.children := RElement 0;          (* the paragraph *)
     Props.actions := RElement 1;           (* Cancel and Confirm *)
     Props.size := None; Props.showCloseButton := None;
     Props.closeOnOutsideClick := None; Props.closeOnEscape := None;
     Props.onClose := handleClose n;
     Props.className := None; Props.style := None;
     Props.showBackdrop := None; Props.fullWidth := None;
     Props.maxWidth := None; Props.disableBodyScroll := None;
     Props.usePortal := None; Props.data_testid := None |}.

Definition rendered (h : Host) : Rendered :=
  Dialog.render (Dialog.destructure (dialogProps (isOpen h) (renders h))).

(** What a user can do: click the "Open Dialog" button, press a key, or
    click an element of the dialog given by its path. A click at
    [actionsPath] is a click on Cancel or on Confirm, the only elements of
    the actions fragment. *)
Inductive Event :=
| ClickOpenDialog
| KeyDown (key : string)
| Click (path : list nat).

(** The values passed to [setIsOpen] while one event is handled. Every
    [onClose] the dialog can call is a [handleClose], which calls
    [setIsOpen(false)], and so do Cancel and Confirm. *)
Definition setIsOpenCalls (h : Host) (e : Event) : list bool :=
  match e with
  | ClickOpenDialog => [true]
  | KeyDown key => map (fun _ => false) (dispatchKeyDown key (world h))
  | Click path =>
      match dispatchClick (rendered h) path with
      | None => []
      | Some tr =>
          ((if pathEqb path actionsPath then [false] else [])
           ++ map (fun _ => false) tr)%list
      end
  end.

Definition reduce (cur : bool) (calls : list bool) : bool :=
  fold_left (fun _ v => v) calls cur.

Definition rerender (h : Host) (o : bool) : Host :=
  let n := S (renders h) in
  let st := Dialog.update (Dialog.destructure (dialogProps o n))
                          (fiber h) (world h) in
  {| isOpen := o; renders := n; fiber := fst st; world := snd st |}.

(** One event: the state updates are applied, and the story renders again
    only if the state changed. *)
Definition step (h : Host) (e : Event) : Host :=
  let o := reduce (isOpen h) (setIsOpenCalls h e) in
  if Bool.eqb o (isOpen h) then h else rerender h o.

Definition initial (s0 : string) : Host :=
  let st := Dialog.mount (Dialog.destructure (dialogProps false 0))
                         (newWorld s0) in
  {| isOpen := false; renders := 0; fiber := fst st; world := snd st |}.

Definition run (s0 : string) (es : list Event) : Host :=
  fold_left step es (initial s0).

(** The events that close the open dialog. *)
Definition dismisses (e : Event) : bool :=
  match e with
  | ClickOpenDialog => false
  | KeyDown key => String.eqb key "Escape"
  | Click path =>
      pathEqb path backdropPath || pathEqb path closeButtonPath
      || pathEqb path actionsPath
  end.

End InteractiveDialog.

(** ** The NestedDialogs story *)

Module NestedDialogs.

(** The story's [render] function holds two state variables and renders two
    dialogs, the primary one first. Each render creates both [onClose]
    arrows anew; render [n] creates [primaryOnClose n] and
    [secondaryOnClose n]. *)
Record Host := {
  isPrimaryOpen : bool;
  isSecondaryOpen : bool;
  renders : nat;
  primary : Fiber;
  secondary : Fiber;
  world : World
}.

Definition primaryOnClose (n : nat) : Callback := 2 * n.
Definition secondaryOnClose (n : nat) : Callback := 2 * n + 1.

Definition primaryProps (o : bool) (n : nat) : Props.t :=
  {| Props.open := o; Props.title := RText "Primary Dialog";
     Props.children := RElement 0;
     Props.actions := RNull;
     Props.size := None; Props.showCloseButton := None;
     Props.closeOnOutsideClick := None; Props.closeOnEscape := None;
     Props.onClose := primaryOnClose n;
     Props.className := None; Props.style := None;
     Props.showBackdrop := None; Props.fullWidth := None;
     Props.maxWidth := None; Props.disableBodyScroll := None;
     Props.usePortal := None; Props.data_testid := None |}.

Definition secondaryProps (o : bool) (n : nat) : Props.t :=
  {| Props.open := o; Props.title := RText "Secondary Dialog";
     Props.children := RElement 1;
     Props.actions := RNull;
     Props.size := Some small; Props.showCloseButton := None;
     Props.closeOnOutsideClick := None; Props.closeOnEscape := None;
     Props.onClose := secondaryOnClose n;
     Props.className := None; Props.style := None;
     Props.showBackdrop := None; Props.fullWidth := None;
     Props.maxWidth := None; Props.disableBodyScroll := None;
     Props.usePortal := None; Props.data_testid := None |}.

Definition renderedPrimary (h : Host) : Rendered :=
  Dialog.render (Dialog.destructure (primaryProps (isPrimaryOpen h) (renders h))).

Definition renderedSecondary (h : Host) : Rendered :=
  Dialog.render
    (Dialog.destructure (secondaryProps (isSecondaryOpen h) (renders h))).

Inductive Setter :=
| setPrimaryOpen (v : bool)
| setSecondaryOpen (v : bool).

(** What calling an [onClose] does: the primary ones (even) are
    [() => setPrimaryOpen(false)], the secondary ones (odd)
    [() => setSecondaryOpen(false)]. *)
Definition onCloseBody (k : Callback) : Setter :=
  if Nat.even k then setPrimaryOpen false else setSecondaryOpen false.

(** What a user can do: click "Open Primary Dialog"; click "Open Secondary
    Dialog", a button among the primary dialog's children, there only while
    that dialog is open; press a key; click an element of either dialog
    given by its path (for the children, one without a handler of its
    own). *)
Inductive Event :=
| ClickOpenPrimary
| ClickOpenSecondary
| KeyDown (key : string)
| ClickPrimary (path : list nat)
| ClickSecondary (path : list nat).

Definition setterCalls (h : Host) (e : Event) : list Setter :=
  match e with
  | ClickOpenPrimary => [setPrimaryOpen true]
  | ClickOpenSecondary =>
      if isPrimaryOpen h then [setSecondaryOpen true] else []
  | KeyDown key => map onCloseBody (dispatchKeyDown key (world h))
  | ClickPrimary path =>
      match dispatchClick (renderedPrimary h) path with
      | Some tr => map onCloseBody tr
      | None => []
      end
  | ClickSecondary path =>
      match dispatchClick (renderedSecondary h) path with
      | Some tr => map onCloseBody tr
      | None => []
      end
  end.

Definition applySetter (st : bool * bool) (s : Setter) : bool * bool :=
  match s with
  | setPrimaryOpen v => (v, snd st)
  | setSecondaryOpen v => (fst st, v)
  end.

Definition reduce (st : bool * bool) (calls : list Setter) : bool * bool :=
  fold_left applySetter calls st.

(** A re-render of the story with the new state: one commit over both
    dialogs, all cleanups before all effect bodies, the primary dialog
    before the secondary one in each phase. *)
Definition rerender (h : Host) (st : bool * bool) : Host :=
  let n := S (renders h) in
  let bP := Dialog.destructure (primaryProps (fst st) n) in
  let bS := Dialog.destructure (secondaryProps (snd st) n) in
  let w1 := Commit.cleanups bP (primary h) (world h) in
  let w2 := Commit.cleanups bS (secondary h) w1 in
  let stP := Commit.effects bP (primary h) w2 in
  let stS := Commit.effects bS (secondary h) (snd stP) in
  {| isPrimaryOpen := fst st; isSecondaryOpen := snd st; renders := n;
     primary := fst stP; secondary := fst stS; world := snd stS |}.

Definition stateEqb (a b : bool * bool) : bool :=
  Bool.eqb (fst a) (fst b) && Bool.eqb (snd a) (snd b).

Definition step (h : Host) (e : Event) : Host :=
  let st := reduce (isPrimaryOpen h, isSecondaryOpen h) (setterCalls h e) in
  if stateEqb st (isPrimaryOpen h, isSecondaryOpen h) then h
  else rerender h st.

Definition initial (s0 : string) : Host :=
  let stP := Dialog.mount (Dialog.destructure (primaryProps false 0))
                          (newWorld s0) in
  let stS := Dialog.mount (Dialog.destructure (secondaryProps false 0))
                          (snd stP) in
  {| isPrimaryOpen := false; isSecondaryOpen := false; renders := 0;
     primary := fst stP; secondary := fst stS; world := snd stS |}.

Definition run (s0 : string) (es : list Event) : Host :=
  fold_left step es (initial s0).

(** The hook states and the document agree with the latest render: two
    keydown listeners, the primary dialog's first. *)
Definition Inv (h : Host) : Prop :=
  exists rP rS,
    Synced (Dialog.destructure (primaryProps (isPrimaryOpen h) (renders h)))
           (primary h) rP /\
    Synced (Dialog.destructure (secondaryProps (isSecondaryOpen h) (renders h)))
           (secondary h) rS /\
    keydown_listeners (world h) =
      [ownListener
         (Dialog.destructure (primaryProps (isPrimaryOpen h) (renders h))) rP;
       ownListener
         (Dialog.destructure (secondaryProps (isSecondaryOpen h) (renders h))) rS] /\
    rP < rS /\ rS < next_ref (world h).

End NestedDialogs.

(** ** Proof steps *)

(** Discharges "no node of this subtree has a click handler" for a subtree
    built from [jsx_and] and handler-free elements. *)
Ltac no_handlers :=
  unfold jsx_and;
  repeat match goal with
    | |- context [if ?c then _ else _] => destruct c
    end;
  simpl; intros n Hn;
  repeat match goal with
    | H : _ \/ _ |- _ => destruct H as [<-|H]
    | H : False |- _ => destruct H
    end; reflexivity.

(** Splits an equation between two bubbling chains into its nodes. *)
Ltac take_chain H := injection H; intros; subst; clear H.

(** * Properties *)

(** ** Effects and the mounted invariant *)

Lemma same_fn_refl h : same_fn h h = true.
Proof. apply Nat.eqb_refl. Qed.

Lemma key_deps_eq_true b b' :
  Dialog.key_deps_eq (Dialog.keyDeps b) (Dialog.keyDeps b') = true ->
  forall r, ownListener b r = ownListener b' r.
Proof.
  unfold Dialog.key_deps_eq, Dialog.keyDeps, ownListener; simpl.
  intros H r.
  apply andb_true_iff in H as [H Ho].
  apply andb_true_iff in H as [He Hc].
  apply Bool.eqb_prop in He, Ho. apply Nat.eqb_eq in Hc.
  now rewrite He, Ho, Hc.
Qed.

Lemma scroll_deps_eq_true b b' :
  Dialog.scroll_deps_eq (Dialog.scrollDeps b) (Dialog.scrollDeps b') = true ->
  Dialog.open b = Dialog.open b' /\
  Dialog.disableBodyScroll b = Dialog.disableBodyScroll b'.
Proof.
  unfold Dialog.scroll_deps_eq, Dialog.scrollDeps; simpl.
  intros H. apply andb_true_iff in H as [Ho Hd].
  apply Bool.eqb_prop in Ho, Hd. now split.
Qed.

Lemma scrollEffect_listeners b w :
  keydown_listeners (fst (Dialog.scrollEffect b w)) = keydown_listeners w /\
  next_ref (fst (Dialog.scrollEffect b w)) = next_ref w.
Proof.
  unfold Dialog.scrollEffect; simpl.
  destruct (Dialog.disableBodyScroll b && Dialog.open b); auto.
Qed.

Lemma clearOverflow_listeners d w :
  keydown_listeners (runCleanup (clearOverflow d) w) = keydown_listeners w /\
  next_ref (runCleanup (clearOverflow d) w) = next_ref w.
Proof. destruct d; auto. Qed.

Lemma keyEffect_fresh b w :
  keydown_listeners w = [] ->
  Dialog.keyEffect b w =
    ({| body_overflow := body_overflow w;
        keydown_listeners := [ownListener b (next_ref w)];
        next_ref := S (next_ref w) |},
     removeKeyDown (ownListener b (next_ref w))).
Proof.
  intros H. unfold Dialog.keyEffect, addEventListener; simpl.
  now rewrite H.
Qed.

Lemma mount_Mounted b w :
  keydown_listeners w = [] -> Mounted b (Dialog.mount b w).
Proof.
  intros H. unfold Dialog.mount.
  destruct (Dialog.scrollEffect b w) as [w1 c1] eqn:E1.
  pose proof (scrollEffect_listeners b w) as [Hl Hn].
  rewrite E1 in Hl, Hn; simpl in Hl, Hn.
  rewrite keyEffect_fresh by congruence.
  apply (MountedAs _ _ (next_ref w1)); simpl; auto.
  unfold Dialog.scrollEffect in E1. now inversion E1.
Qed.

Lemma update_Mounted b b' f w :
  Mounted b (f, w) -> Mounted b' (Dialog.update b' f w).
Proof.
  intros [r Hl Hc Hr Hkd Hsd Hsc]; simpl in *.
  unfold Dialog.update. rewrite Hkd, Hsd, Hsc, Hc.
  set (w1 := if negb _ then runCleanup (clearOverflow _) w else w).
  assert (H1 : keydown_listeners w1 = keydown_listeners w /\
               next_ref w1 = next_ref w).
  { subst w1. destruct (negb _); auto using clearOverflow_listeners. }
  destruct H1 as [H1l H1n].
  destruct (Dialog.key_deps_eq (Dialog.keyDeps b) (Dialog.keyDeps b')) eqn:Ek;
    simpl.
  - set (s3 := if negb _ then Dialog.scrollEffect b' w1 else (w1, _)).
    assert (H3 : keydown_listeners (fst s3) = keydown_listeners w /\
                 next_ref (fst s3) = next_ref w /\
                 snd s3 = clearOverflow (Dialog.disableBodyScroll b')).
    { subst s3. destruct (negb _) eqn:En.
      - destruct (scrollEffect_listeners b' w1) as [-> ->]. auto.
      - simpl. repeat split; auto.
        apply negb_false_iff, scroll_deps_eq_true in En as [_ ->]. auto. }
    destruct s3 as [w3 c1]; simpl in H3. destruct H3 as (H3l & H3n & ->).
    apply (MountedAs _ _ r); simpl; auto; try congruence.
    + rewrite H3l, Hl. f_equal. now apply key_deps_eq_true.
    + f_equal. now apply key_deps_eq_true.
  - set (w2 := removeEventListener (ownListener b r) w1).
    assert (H2 : keydown_listeners w2 = [] /\ next_ref w2 = next_ref w).
    { subst w2; simpl. rewrite H1l, Hl; simpl.
      now rewrite same_fn_refl. }
    destruct H2 as [H2l H2n].
    set (s3 := if negb _ then Dialog.scrollEffect b' w2 else (w2, _)).
    assert (H3 : keydown_listeners (fst s3) = [] /\
                 snd s3 = clearOverflow (Dialog.disableBodyScroll b')).
    { subst s3. destruct (negb _) eqn:En.
      - destruct (scrollEffect_listeners b' w2) as [-> _]. auto.
      - simpl. split; auto.
        apply negb_false_iff, scroll_deps_eq_true in En as [_ ->]. auto. }
    destruct s3 as [w3 c1]; simpl in H3. destruct H3 as (H3l & ->).
    unfold addEventListener; simpl. rewrite H3l; simpl.
    apply (MountedAs _ _ (next_ref w3)); simpl; auto.
Qed.

Lemma updates_Mounted ps : forall p st,
  Mounted (Dialog.destructure p) st ->
  Mounted (Dialog.destructure (latest p ps)) (Dialog.updates ps st).
Proof.
  induction ps as [|q ps IH]; intros p [f w] H; simpl; auto.
  apply IH. now apply update_Mounted with (b := Dialog.destructure p).
Qed.

(** ** Body overflow *)

Lemma keyEffect_overflow b w :
  body_overflow (fst (Dialog.keyEffect b w)) = body_overflow w.
Proof.
  unfold Dialog.keyEffect, addEventListener; simpl.
  now destruct (existsb _ _).
Qed.

Lemma mount_overflow b w :
  body_overflow (snd (Dialog.mount b w)) =
  if Dialog.disableBodyScroll b && Dialog.open b then "hidden"
  else body_overflow w.
Proof.
  unfold Dialog.mount, Dialog.scrollEffect.
  destruct (Dialog.keyEffect b _) as [w2 c2] eqn:E; simpl.
  change w2 with (fst (w2, c2)). rewrite <- E, keyEffect_overflow.
  now destruct (Dialog.disableBodyScroll b && Dialog.open b).
Qed.

Lemma update_overflow b b' f w :
  Mounted b (f, w) ->
  body_overflow (snd (Dialog.update b' f w)) =
  if Dialog.scroll_deps_eq (Dialog.scrollDeps b) (Dialog.scrollDeps b')
  then body_overflow w
  else if Dialog.disableBodyScroll b' && Dialog.open b' then "hidden"
  else if Dialog.disableBodyScroll b then "" else body_overflow w.
Proof.
  intros [r Hl Hc Hr Hkd Hsd Hsc]; simpl in *.
  unfold Dialog.update. rewrite Hkd, Hsd, Hsc, Hc.
  destruct (Dialog.scroll_deps_eq _ _); simpl;
    destruct (Dialog.key_deps_eq _ _); simpl;
    unfold Dialog.scrollEffect; simpl;
    try match goal with
      | |- context [addEventListener ?h ?w'] =>
          unfold addEventListener; destruct (existsb (same_fn h) _)
      end; simpl;
    destruct (Dialog.disableBodyScroll b' && Dialog.open b');
    destruct (Dialog.disableBodyScroll b); reflexivity.
Qed.

Lemma updates_overflow ps : forall p st s0 seen,
  Mounted (Dialog.destructure p) st ->
  scrollLocked p = true ->
  forallb scrollLocked ps = true ->
  (Props.open p = true -> seen = true) ->
  body_overflow (snd st) = expectedOverflow s0 seen (Props.open p) ->
  body_overflow (snd (Dialog.updates ps st)) =
  expectedOverflow s0 (seen || everOpen ps) (Props.open (latest p ps)).
Proof.
  induction ps as [|q ps IH]; intros p [f w] s0 seen Hm Hp Hps Hseen Hov.
  - simpl in *. now rewrite orb_false_r.
  - simpl in Hps. apply andb_true_iff in Hps as [Hq Hps].
    simpl Dialog.updates. simpl latest.
    replace (seen || everOpen (q :: ps))
      with ((seen || Props.open q) || everOpen ps)
      by (simpl; now rewrite orb_assoc).
    apply IH; auto.
    + now apply update_Mounted with (b := Dialog.destructure p).
    + intros ->. apply orb_true_r.
    + rewrite (update_overflow (Dialog.destructure p)) by assumption.
      unfold scrollLocked in Hp, Hq. simpl in Hov, Hp, Hq |- *.
      rewrite Hp, Hq.
      destruct (Dialog.scroll_deps_eq _ _) eqn:E.
      * apply scroll_deps_eq_true in E as [E _]. simpl in E.
        rewrite Hov, <- E. unfold expectedOverflow.
        destruct (Props.open p); auto. now rewrite orb_false_r.
      * simpl. unfold expectedOverflow.
        destruct (Props.open q) eqn:Eq; auto.
        destruct (Props.open p) eqn:Ep.
        -- now rewrite Hseen.
        -- unfold Dialog.scroll_deps_eq, Dialog.scrollDeps in E. simpl in E.
           rewrite Ep, Eq, Hp, Hq in E. discriminate.
Qed.

Lemma lifecycle_overflow s0 p0 ps :
  forallb scrollLocked (p0 :: ps) = true ->
  body_overflow (finalWorld s0 p0 ps) =
  expectedOverflow s0 (everOpen (p0 :: ps)) (Props.open (latest p0 ps)).
Proof.
  intros H. simpl in H. apply andb_true_iff in H as [H0 Hps].
  unfold finalWorld, Dialog.lifecycle. simpl everOpen.
  apply updates_overflow; auto.
  - now apply mount_Mounted.
  - rewrite mount_overflow. unfold scrollLocked in H0. rewrite H0. simpl.
    unfold expectedOverflow. now destruct (Props.open p0).
Qed.

Lemma lifecycle_Mounted s0 p0 ps :
  Mounted (current p0 ps) (Dialog.lifecycle p0 ps (newWorld s0)).
Proof.
  unfold current, Dialog.lifecycle.
  apply updates_Mounted. now apply mount_Mounted.
Qed.

(** A keydown event in a document holding only the dialog's listener runs the
    [handleKeyDown] of the latest render. *)
Lemma lifecycle_keydown s0 p0 ps key :
  dispatchKeyDown key (finalWorld s0 p0 ps) =
  if Dialog.closeOnEscape (current p0 ps) && String.eqb key "Escape"
     && Dialog.open (current p0 ps)
  then [Dialog.onClose (current p0 ps)] else [].
Proof.
  destruct (lifecycle_Mounted s0 p0 ps) as [r Hl _ _ _ _ _].
  unfold dispatchKeyDown, finalWorld. rewrite Hl. simpl.
  unfold handleKeyDown. simpl. now rewrite app_nil_r.
Qed.

(** ** Clicks *)

Lemma render_content b :
  Dialog.open b = true ->
  contentOf (Dialog.render b) = Some (Dialog.dialogContent b).
Proof.
  intros H. unfold Dialog.render. rewrite H. simpl.
  now destruct (Dialog.usePortal b).
Qed.

Lemma clickChain_inv r path chain :
  clickChain r path = Some chain ->
  exists root t up,
    contentOf r = Some root /\ ancestry path root [] = Some chain /\
    chain = t :: up /\ isElement t = true.
Proof.
  unfold clickChain. destruct (contentOf r) as [root|] eqn:Er; [|discriminate].
  destruct (ancestry path root []) as [[|t up]|] eqn:Ea; try discriminate.
  destruct (isElement t) eqn:E; [|discriminate].
  intros [= <-]. exists root, t, up. auto.
Qed.

(** A click landing in a subtree none of whose nodes has a click handler
    reaches the handlers above that subtree, away from its target. *)
Lemma bubble_inner path : forall v above chain,
  (forall n, In n (nodes v) -> onClickOf n = None) ->
  ancestry path v above = Some chain ->
  bubble true chain = bubble false above.
Proof.
  induction path as [|i rest IH]; intros v above chain Hv H; simpl in H.
  - injection H as <-. simpl.
    now rewrite (Hv v) by (destruct v; simpl; auto).
  - destruct v as [c a kids| |]; try discriminate.
    destruct (nth_error kids i) as [k|] eqn:Ek; [|discriminate].
    rewrite (IH k (Styled c a kids :: above) chain); auto.
    + simpl bubble.
      assert (Hself : onClickOf (Styled c a kids) = None)
        by (apply Hv; simpl; auto).
      simpl in Hself. now rewrite Hself.
    + intros n Hn. apply Hv. simpl. right.
      apply in_flat_map. exists k. split; auto.
      eapply nth_error_In; eauto.
Qed.

(** The handlers a click inside the panel runs: the panel's own
    [stopPropagation], preceded by [onClose] when the target is the close
    button. The backdrop's handler is not among them. *)
Lemma panel_click_handlers b rest hs :
  Dialog.open b = true ->
  handlersRun (Dialog.render b) (0 :: rest) = Some hs ->
  (rest = [] /\ hs = [(stopPropagation, true)]) \/
  (0 :: rest <> closeButtonPath /\ hs = [(stopPropagation, false)]) \/
  (0 :: rest = closeButtonPath /\ Dialog.showCloseButton b = true /\
   hs = [(callOnClose (Dialog.onClose b), true); (stopPropagation, false)]).
Proof.
  intros Ho H. unfold handlersRun in H.
  destruct (clickChain _ _) as [chain|] eqn:Ec; [|discriminate].
  injection H as <-.
  apply clickChain_inv in Ec as (root & t & up & Hr & Ha & -> & Ht).
  rewrite render_content in Hr by assumption. injection Hr as <-.
  unfold Dialog.dialogContent in Ha.
  cbn [ancestry nth_error] in Ha.
  destruct rest as [|i r1].
  { left. split; auto. cbn [ancestry] in Ha. take_chain Ha. reflexivity. }
  right.
  cbn [ancestry] in Ha.
  destruct i as [|[|[|i]]]; cbn [nth_error] in Ha.
  - (* header *)
    unfold jsx_and at 1 in Ha.
    destruct (truthy (js_or _ _));
      [|destruct r1; [|discriminate]; left; split; [discriminate|];
        take_chain Ha; reflexivity].
    destruct r1 as [|j r2]; cbn [ancestry] in Ha.
    { left. split; [discriminate|]. take_chain Ha. reflexivity. }
    destruct j as [|[|j]]; cbn [nth_error] in Ha.
    + left. split; [discriminate|].
      eapply bubble_inner in Ha; [rewrite Ha; reflexivity|no_handlers].
    + destruct (Dialog.showCloseButton b) eqn:Es; cbn [jsx_and truthy] in Ha.
      * destruct r2 as [|k r3]; cbn [ancestry] in Ha.
        -- right. repeat split; auto. take_chain Ha. reflexivity.
        -- destruct k as [|[|k]]; cbn [nth_error] in Ha; try discriminate.
           destruct r3; [|discriminate]. cbn [ancestry] in Ha.
           take_chain Ha. discriminate.
      * destruct r2; [|discriminate]. cbn [ancestry] in Ha.
        take_chain Ha. discriminate.
    + destruct j; discriminate.
  - left. split; [discriminate|].
    eapply bubble_inner in Ha; [rewrite Ha; reflexivity|no_handlers].
  - left. split; [discriminate|].
    eapply bubble_inner in Ha; [rewrite Ha; reflexivity|no_handlers].
  - destruct i; discriminate.
Qed.

Lemma backdrop_click_handlers b :
  Dialog.open b = true ->
  handlersRun (Dialog.render b) backdropPath =
  Some [(handleBackdropClick (Dialog.closeOnOutsideClick b) (Dialog.onClose b),
         true)].
Proof.
  intros Ho. unfold handlersRun, clickChain.
  now rewrite render_content by assumption.
Qed.

Lemma closeButton_click_handlers b :
  Dialog.open b = true ->
  Dialog.showCloseButton b = true ->
  handlersRun (Dialog.render b) closeButtonPath =
  Some [(callOnClose (Dialog.onClose b), true); (stopPropagation, false)] /\
  option_map componentOf (targetOf (Dialog.render b) closeButtonPath) =
  Some (Some CloseButton).
Proof.
  intros Ho Hs. unfold targetOf, handlersRun, clickChain.
  rewrite render_content by assumption.
  unfold Dialog.dialogContent, closeButtonPath, js_or. rewrite Hs.
  destruct (truthy (Dialog.title b)) eqn:Et; unfold jsx_and; simpl;
    rewrite ?Et; simpl; auto.
Qed.

(** Outside the panel and the backdrop itself there is nothing to click. *)
Lemma click_paths b i rest :
  handlersRun (Dialog.render b) (S i :: rest) = None.
Proof.
  unfold handlersRun, clickChain.
  destruct (contentOf (Dialog.render b)) as [root|] eqn:E; auto.
  unfold Dialog.render in E.
  destruct (negb (Dialog.open b)); [discriminate|].
  assert (root = Dialog.dialogContent b)
    by (destruct (Dialog.usePortal b); now inversion E).
  subst root. simpl. now destruct i.
Qed.

Lemma click_calls b path tr :
  Dialog.open b = true ->
  dispatchClick (Dialog.render b) path = Some tr ->
  (path = backdropPath /\
   tr = if Dialog.closeOnOutsideClick b then [Dialog.onClose b] else []) \/
  (path = closeButtonPath /\ Dialog.showCloseButton b = true /\
   tr = [Dialog.onClose b]) \/
  (path <> backdropPath /\ path <> closeButtonPath /\ tr = []).
Proof.
  intros Ho H. unfold dispatchClick in H.
  destruct path as [|[|i] rest].
  - left. rewrite backdrop_click_handlers in H by assumption.
    simpl in H. injection H as <-. split; auto.
    now destruct (Dialog.closeOnOutsideClick b).
  - right.
    destruct (handlersRun _ _) as [hs|] eqn:E; [|discriminate].
    injection H as <-.
    apply panel_click_handlers in E; auto.
    destruct E as [[-> ->]|[[Hn ->]|(Hp & Hs & ->)]].
    + right. repeat split; discriminate.
    + right. repeat split; auto. discriminate.
    + left. auto.
  - now rewrite click_paths in H.
Qed.

(** Re-rendering with unchanged props runs no effect. *)
Lemma update_same_bindings b f w :
  Mounted b (f, w) -> snd (Dialog.update b f w) = w.
Proof.
  intros [r Hl Hc Hr Hkd Hsd Hsc]; simpl in *.
  unfold Dialog.update. rewrite Hkd, Hsd.
  assert (E1 : Dialog.scroll_deps_eq (Dialog.scrollDeps b) (Dialog.scrollDeps b) = true).
  { unfold Dialog.scroll_deps_eq. now rewrite !Bool.eqb_reflx. }
  assert (E2 : Dialog.key_deps_eq (Dialog.keyDeps b) (Dialog.keyDeps b) = true).
  { unfold Dialog.key_deps_eq. now rewrite !Bool.eqb_reflx, Nat.eqb_refl. }
  now rewrite E1, E2.
Qed.

Lemma updates_app ps qs st :
  Dialog.updates (ps ++ qs) st = Dialog.updates qs (Dialog.updates ps st).
Proof.
  revert st. induction ps as [|p ps IH]; intros st; simpl; auto.
Qed.

(** Teardown removes the dialog's keydown listener. *)
Lemma unmount_removes_listener s0 p0 ps :
  keydown_listeners
    (Dialog.unmount (fst (Dialog.lifecycle p0 ps (newWorld s0)))
                    (finalWorld s0 p0 ps)) = [].
Proof.
  destruct (lifecycle_Mounted s0 p0 ps) as [r Hl Hc _ _ _ Hsc].
  unfold Dialog.unmount, finalWorld. rewrite Hc, Hsc.
  cbn [runCleanup removeEventListener keydown_listeners].
  destruct (Dialog.disableBodyScroll (current p0 ps)); simpl;
    rewrite Hl; simpl; now rewrite same_fn_refl.
Qed.

(** With the backdrop shown and no inline [display: none] from the caller,
    the backdrop and the panel both generate boxes. *)
Lemma shown_backdrop_has_boxes p :
  Props.open p = true ->
  Dialog.showBackdrop (Dialog.destructure p) = true ->
  exists v rest,
    visibleBoxes (Dialog.render (Dialog.destructure p)) = v :: rest /\
    componentOf v = Some DialogBackdrop.
Proof.
  intros Ho Hs. unfold visibleBoxes.
  rewrite render_content by assumption.
  unfold Dialog.dialogContent. rewrite Hs.
  eexists. eexists. split; reflexivity.
Qed.

(** * The claims *)

(** C1, as stated, fails: rendering the dialog closed does register a global
    listener. Mounting [<Dialog open={false} ...>] into a document without
    keydown listeners leaves the document with one. *)
Lemma closed_dialog_registers_keydown_listener :
  Props.open pClosed = false /\
  Dialog.render (Dialog.destructure pClosed) = RenderNull /\
  keydown_listeners (newWorld "") = [] /\
  length (keydown_listeners
            (snd (Dialog.mount (Dialog.destructure pClosed) (newWorld "")))) = 1.
Proof. repeat split. Qed.

(** C1 (amended): for every configuration, rendering the Dialog with
    open=false produces no overlay (the render result is empty, nothing
    generates a box) and the mount leaves the body overflow untouched; one
    document-level keydown listener is installed, and it is inert: no key
    makes it call [onClose]. *)
Theorem closed_dialog_renders_nothing_listener_inert (p : Props.t) (s0 : string) :
  Props.open p = false ->
  Dialog.render (Dialog.destructure p) = RenderNull /\
  visibleBoxes (Dialog.render (Dialog.destructure p)) = [] /\
  body_overflow (snd (Dialog.mount (Dialog.destructure p) (newWorld s0))) = s0 /\
  exists h,
    keydown_listeners (snd (Dialog.mount (Dialog.destructure p) (newWorld s0)))
      = [h] /\
    forall key, handleKeyDown h key = [].
Proof.
  intros Ho.
  assert (Hb : Dialog.open (Dialog.destructure p) = false) by exact Ho.
  assert (Hr : Dialog.render (Dialog.destructure p) = RenderNull)
    by (unfold Dialog.render; now rewrite Hb).
  split; [exact Hr|]. split; [now rewrite Hr|]. split.
  - rewrite mount_overflow, Hb. now rewrite andb_false_r.
  - destruct (mount_Mounted (Dialog.destructure p) (newWorld s0) eq_refl)
      as [r Hl _ _ _ _ _].
    exists (ownListener (Dialog.destructure p) r). split; [exact Hl|].
    intros key. unfold handleKeyDown, ownListener. cbn [k_open k_closeOnEscape].
    rewrite Hb. now rewrite andb_false_r.
Qed.

Lemma closed_dialog_renders_nothing_listener_inert_witness :
  Dialog.render (Dialog.destructure pClosed) = RenderNull /\
  visibleBoxes (Dialog.render (Dialog.destructure pClosed)) = [] /\
  body_overflow (snd (Dialog.mount (Dialog.destructure pClosed) (newWorld "auto")))
    = "auto" /\
  exists h,
    keydown_listeners
      (snd (Dialog.mount (Dialog.destructure pClosed) (newWorld "auto"))) = [h] /\
    forall key, handleKeyDown h key = [].
Proof.
  apply (closed_dialog_renders_nothing_listener_inert pClosed "auto").
  reflexivity.
Defined.

(** C2, as stated, fails: the cleanup assigns the empty string, it does not
    put back what was there. With the body overflow at "hidden" beforehand
    (say, locked by another dialog that is still open), a dialog that is
    mounted closed, opened and closed again leaves it at the empty string. *)
Lemma scroll_lock_prior_state_not_restored :
  forallb scrollLocked [pClosed; pOpen; pClosed] = true /\
  Props.open (latest pClosed [pOpen; pClosed]) = false /\
  body_overflow (finalWorld "hidden" pClosed [pOpen; pClosed]) = "" /\
  body_overflow (finalWorld "hidden" pClosed [pOpen; pClosed]) <> "hidden".
Proof. repeat split. discriminate. Qed.

(** C2 (amended): with disableBodyScroll enabled throughout, after any
    sequence of renders the body overflow is "hidden" when the latest render
    is open; when it is closed, the overflow is the empty string if any
    render of the sequence was open, and untouched otherwise. So a sequence
    that ends closed leaves the overflow equal to its value before whenever
    that value was the empty string. Rendering again with the same props
    changes nothing. *)
Theorem scroll_lock_set_on_open_cleared_on_close
  (s0 : string) (p0 : Props.t) (ps : list Props.t) :
  forallb scrollLocked (p0 :: ps) = true ->
  (Props.open (latest p0 ps) = true ->
   body_overflow (finalWorld s0 p0 ps) = "hidden") /\
  (Props.open (latest p0 ps) = false -> everOpen (p0 :: ps) = true ->
   body_overflow (finalWorld s0 p0 ps) = "") /\
  (Props.open (latest p0 ps) = false -> everOpen (p0 :: ps) = false ->
   body_overflow (finalWorld s0 p0 ps) = s0) /\
  (Props.open (latest p0 ps) = false -> s0 = "" ->
   body_overflow (finalWorld s0 p0 ps) = s0) /\
  finalWorld s0 p0 (ps ++ [latest p0 ps]) = finalWorld s0 p0 ps.
Proof.
  intros H. pose proof (lifecycle_overflow s0 p0 ps H) as E.
  unfold expectedOverflow in E.
  repeat split.
  - intros Ho. now rewrite Ho in E.
  - intros Ho He. now rewrite Ho, He in E.
  - intros Ho He. now rewrite Ho, He in E.
  - intros Ho ->. rewrite Ho in E. now destruct (everOpen (p0 :: ps)).
  - unfold finalWorld, Dialog.lifecycle. rewrite updates_app. simpl.
    pose proof (lifecycle_Mounted s0 p0 ps) as Hm.
    unfold current, Dialog.lifecycle in Hm.
    destruct (Dialog.updates ps _) as [f w].
    now apply update_same_bindings.
Qed.

Lemma scroll_lock_set_on_open_cleared_on_close_witness :
  body_overflow (finalWorld "" pOpen [pClosed; pOpen; pClosed]) = "".
Proof.
  destruct (scroll_lock_set_on_open_cleared_on_close
              "" pOpen [pClosed; pOpen; pClosed] eq_refl)
    as (_ & _ & _ & H & _).
  apply H; reflexivity.
Defined.

(** C3: for every configuration with open=true, an Escape keydown calls
    [onClose] exactly once if [closeOnEscape] is enabled and not at all
    otherwise. This holds after any sequence of renders, the latest of which
    is open. *)
Theorem escape_calls_onClose_once_iff_closeOnEscape
  (s0 : string) (p0 : Props.t) (ps : list Props.t) :
  Dialog.open (current p0 ps) = true ->
  dispatchKeyDown "Escape" (finalWorld s0 p0 ps) =
    (if Dialog.closeOnEscape (current p0 ps)
     then [Dialog.onClose (current p0 ps)] else []) /\
  (count_occ Nat.eq_dec (dispatchKeyDown "Escape" (finalWorld s0 p0 ps))
     (Dialog.onClose (current p0 ps)) = 1
   <-> Dialog.closeOnEscape (current p0 ps) = true).
Proof.
  intros Ho. rewrite lifecycle_keydown, Ho. simpl String.eqb.
  rewrite andb_true_r, andb_true_r.
  destruct (Dialog.closeOnEscape (current p0 ps)); split; auto.
  - split; auto. intros _. simpl.
    now destruct (Nat.eq_dec _ _).
  - simpl. split; discriminate.
Qed.

Lemma escape_calls_onClose_once_iff_closeOnEscape_witness :
  dispatchKeyDown "Escape" (finalWorld "" pClosed [pOpen]) = [7].
Proof.
  apply (escape_calls_onClose_once_iff_closeOnEscape "" pClosed [pOpen]).
  reflexivity.
Defined.

(** C4, as stated, fails: the close button is inside the panel, and a click
    on it calls [onClose]. *)
Lemma click_inside_panel_can_call_onClose :
  Dialog.open (Dialog.destructure pOpen) = true /\
  closeButtonPath = 0 :: [0; 1] /\
  option_map componentOf
    (targetOf (Dialog.render (Dialog.destructure pOpen)) closeButtonPath)
    = Some (Some CloseButton) /\
  dispatchClick (Dialog.render (Dialog.destructure pOpen)) closeButtonPath
    = Some [Dialog.onClose (Dialog.destructure pOpen)].
Proof. repeat split. Qed.

(** C4 (amended): for every configuration with open=true, a click whose
    target is the backdrop element itself calls [onClose] (once) if and only
    if [closeOnOutsideClick] is enabled; a click whose target is inside the
    panel never runs the backdrop's handler, and calls [onClose] only when
    its target is the rendered close button. *)
Theorem backdrop_click_calls_onClose_iff_closeOnOutsideClick (p : Props.t) :
  Props.open p = true ->
  dispatchClick (Dialog.render (Dialog.destructure p)) backdropPath =
    Some (if Dialog.closeOnOutsideClick (Dialog.destructure p)
          then [Dialog.onClose (Dialog.destructure p)] else []) /\
  forall rest hs,
    handlersRun (Dialog.render (Dialog.destructure p)) (0 :: rest) = Some hs ->
    existsb (fun hr => isBackdropHandler (fst hr)) hs = false /\
    (0 :: rest <> closeButtonPath -> callsOf hs = []).
Proof.
  intros Ho. split.
  - unfold dispatchClick.
    rewrite backdrop_click_handlers by exact Ho.
    unfold callsOf. cbn [option_map flat_map runHandler fst snd].
    now rewrite andb_true_r, app_nil_r.
  - intros rest hs H.
    apply panel_click_handlers in H; [|exact Ho].
    destruct H as [[-> ->]|[[Hn ->]|(Hp & Hs & ->)]]; split; auto.
    intros Hc. now destruct Hc.
Qed.

Lemma backdrop_click_calls_onClose_iff_closeOnOutsideClick_witness :
  dispatchClick (Dialog.render (Dialog.destructure pOpen)) backdropPath =
    Some [7].
Proof.
  apply (backdrop_click_calls_onClose_iff_closeOnOutsideClick pOpen).
  reflexivity.
Defined.

(** C5: for every configuration with open=true and showCloseButton enabled,
    the close button is rendered and a click on it calls [onClose] exactly
    once, whatever closeOnEscape and closeOnOutsideClick are. *)
Theorem close_button_calls_onClose_once (p : Props.t) :
  Props.open p = true ->
  Dialog.showCloseButton (Dialog.destructure p) = true ->
  option_map componentOf
    (targetOf (Dialog.render (Dialog.destructure p)) closeButtonPath)
    = Some (Some CloseButton) /\
  dispatchClick (Dialog.render (Dialog.destructure p)) closeButtonPath =
    Some [Dialog.onClose (Dialog.destructure p)].
Proof.
  intros Ho Hs.
  destruct (closeButton_click_handlers (Dialog.destructure p) Ho Hs) as [Hh Ht].
  split; [exact Ht|].
  unfold dispatchClick. now rewrite Hh.
Qed.

Lemma close_button_calls_onClose_once_witness :
  dispatchClick (Dialog.render (Dialog.destructure pNoDismiss)) closeButtonPath =
    Some [7].
Proof.
  apply (close_button_calls_onClose_once pNoDismiss); reflexivity.
Defined.

(** C6: while the dialog is open, one key press or one click makes the
    component call [onClose] at most once, under every configuration. *)
Theorem one_event_at_most_one_close
  (s0 : string) (p0 : Props.t) (ps : list Props.t) :
  Dialog.open (current p0 ps) = true ->
  (forall key, length (dispatchKeyDown key (finalWorld s0 p0 ps)) <= 1) /\
  (forall path tr,
     dispatchClick (Dialog.render (current p0 ps)) path = Some tr ->
     length tr <= 1).
Proof.
  intros Ho. split.
  - intros key. rewrite lifecycle_keydown.
    destruct (_ && _); simpl; lia.
  - intros path tr H.
    apply click_calls in H; [|exact Ho].
    destruct H as [[_ ->]|[(_ & _ & ->)|(_ & _ & ->)]];
      [destruct (Dialog.closeOnOutsideClick (current p0 ps))| |]; simpl; lia.
Qed.

Lemma one_event_at_most_one_close_witness :
  (forall key, length (dispatchKeyDown key (finalWorld "" pOpen [])) <= 1) /\
  (forall path tr,
     dispatchClick (Dialog.render (current pOpen [])) path = Some tr ->
     length tr <= 1).
Proof.
  apply (one_event_at_most_one_close "" pOpen []). reflexivity.
Defined.

(** The effects do not read [usePortal]. *)
Lemma updates_usePortal (u1 u2 : option bool) ps : forall st,
  Dialog.updates (map (withUsePortal u1) ps) st =
  Dialog.updates (map (withUsePortal u2) ps) st.
Proof.
  induction ps as [|p ps IH]; intros st; simpl; [reflexivity|].
  rewrite IH. reflexivity.
Qed.

Lemma content_usePortal (u1 u2 : option bool) p :
  contentOf (Dialog.render (Dialog.destructure (withUsePortal u1 p))) =
  contentOf (Dialog.render (Dialog.destructure (withUsePortal u2 p))).
Proof.
  unfold Dialog.render.
  change (Dialog.open (Dialog.destructure (withUsePortal u1 p)))
    with (Props.open p).
  change (Dialog.open (Dialog.destructure (withUsePortal u2 p)))
    with (Props.open p).
  destruct (negb (Props.open p)); auto.
  destruct (Dialog.usePortal (Dialog.destructure (withUsePortal u1 p))),
           (Dialog.usePortal (Dialog.destructure (withUsePortal u2 p)));
    reflexivity.
Qed.

(** C7: whether [usePortal] is true, false or omitted, the same dialog
    content with the same handlers is produced, every click calls the same
    callbacks, the effects leave the same hook state and document, and so
    every keydown calls the same callbacks. With [usePortal] true the content
    goes to [document.body], with false it is returned inline. *)
Theorem usePortal_does_not_affect_dismissal (u1 u2 : option bool) :
  (forall p,
     contentOf (Dialog.render (Dialog.destructure (withUsePortal u1 p))) =
     contentOf (Dialog.render (Dialog.destructure (withUsePortal u2 p)))) /\
  (forall p path,
     dispatchClick (Dialog.render (Dialog.destructure (withUsePortal u1 p))) path =
     dispatchClick (Dialog.render (Dialog.destructure (withUsePortal u2 p))) path) /\
  (forall p0 ps w,
     Dialog.lifecycle (withUsePortal u1 p0) (map (withUsePortal u1) ps) w =
     Dialog.lifecycle (withUsePortal u2 p0) (map (withUsePortal u2) ps) w) /\
  (forall s0 p0 ps key,
     dispatchKeyDown key
       (finalWorld s0 (withUsePortal u1 p0) (map (withUsePortal u1) ps)) =
     dispatchKeyDown key
       (finalWorld s0 (withUsePortal u2 p0) (map (withUsePortal u2) ps))) /\
  (forall p,
     Dialog.render (Dialog.destructure (withUsePortal (Some true) p)) =
       (if Props.open p
        then Portal (Dialog.dialogContent (Dialog.destructure p)) "document.body"
        else RenderNull) /\
     Dialog.render (Dialog.destructure (withUsePortal (Some false) p)) =
       (if Props.open p
        then Inline (Dialog.dialogContent (Dialog.destructure p))
        else RenderNull)).
Proof.
  assert (L : forall p0 ps w,
             Dialog.lifecycle (withUsePortal u1 p0) (map (withUsePortal u1) ps) w =
             Dialog.lifecycle (withUsePortal u2 p0) (map (withUsePortal u2) ps) w).
  { intros p0 ps w. unfold Dialog.lifecycle.
    rewrite (updates_usePortal u1 u2). reflexivity. }
  repeat split.
  - apply content_usePortal.
  - intros p path. unfold dispatchClick, handlersRun, clickChain.
    now rewrite (content_usePortal u1 u2).
  - exact L.
  - intros s0 p0 ps key. unfold finalWorld. now rewrite L.
  - unfold Dialog.render. simpl. now destruct (Props.open p).
  - unfold Dialog.render. simpl. now destruct (Props.open p).
Qed.

(** C8: an option the caller omits takes its default: size medium, close
    button shown, outside click and Escape enabled, backdrop shown, body
    scroll disabled, portal rendering enabled. *)
Theorem omitted_options_take_defaults (p : Props.t) :
  (Props.size p = None -> Dialog.size (Dialog.destructure p) = medium) /\
  (Props.showCloseButton p = None ->
   Dialog.showCloseButton (Dialog.destructure p) = true) /\
  (Props.closeOnOutsideClick p = None ->
   Dialog.closeOnOutsideClick (Dialog.destructure p) = true) /\
  (Props.closeOnEscape p = None ->
   Dialog.closeOnEscape (Dialog.destructure p) = true) /\
  (Props.showBackdrop p = None ->
   Dialog.showBackdrop (Dialog.destructure p) = true) /\
  (Props.disableBodyScroll p = None ->
   Dialog.disableBodyScroll (Dialog.destructure p) = true) /\
  (Props.usePortal p = None -> Dialog.usePortal (Dialog.destructure p) = true).
Proof.
  repeat split; intros H; simpl; now rewrite H.
Qed.

Lemma omitted_options_take_defaults_witness :
  Dialog.size (Dialog.destructure pOpen) = medium /\
  Dialog.showCloseButton (Dialog.destructure pOpen) = true /\
  Dialog.closeOnOutsideClick (Dialog.destructure pOpen) = true /\
  Dialog.closeOnEscape (Dialog.destructure pOpen) = true /\
  Dialog.showBackdrop (Dialog.destructure pOpen) = true /\
  Dialog.disableBodyScroll (Dialog.destructure pOpen) = true /\
  Dialog.usePortal (Dialog.destructure pOpen) = true.
Proof.
  destruct (omitted_options_take_defaults pOpen)
    as (H1 & H2 & H3 & H4 & H5 & H6 & H7).
  exact (conj (H1 eq_refl) (conj (H2 eq_refl) (conj (H3 eq_refl)
           (conj (H4 eq_refl) (conj (H5 eq_refl)
              (conj (H6 eq_refl) (H7 eq_refl))))))).
Defined.

(** C9: for every configuration with open=true and showBackdrop=false, the
    backdrop wrapper carries the inline style [display: none]; the panel is
    its only child, so no node of the dialog (panel, title, content, actions)
    generates a box. *)
Theorem hidden_backdrop_hides_whole_dialog (p : Props.t) :
  Props.open p = true ->
  Dialog.showBackdrop (Dialog.destructure p) = false ->
  exists attrs panelAttrs kids,
    contentOf (Dialog.render (Dialog.destructure p)) =
      Some (Styled DialogBackdrop attrs
              [Styled DialogContainer panelAttrs kids]) /\
    a_style attrs = Some [("display", "none")] /\
    displayNone attrs = true /\
    visibleBoxes (Dialog.render (Dialog.destructure p)) = [] /\
    forall n,
      In n (nodes (Styled DialogContainer panelAttrs kids)) ->
      ~ In n (visibleBoxes (Dialog.render (Dialog.destructure p))).
Proof.
  intros Ho Hs.
  assert (Hc := render_content (Dialog.destructure p) Ho).
  unfold visibleBoxes. rewrite Hc.
  unfold Dialog.dialogContent. rewrite Hs.
  do 3 eexists. split; [reflexivity|].
  repeat split. intros n _ [].
Qed.

Lemma hidden_backdrop_hides_whole_dialog_witness :
  exists attrs panelAttrs kids,
    contentOf (Dialog.render (Dialog.destructure pNoBackdrop)) =
      Some (Styled DialogBackdrop attrs
              [Styled DialogContainer panelAttrs kids]) /\
    a_style attrs = Some [("display", "none")] /\
    displayNone attrs = true /\
    visibleBoxes (Dialog.render (Dialog.destructure pNoBackdrop)) = [] /\
    forall n,
      In n (nodes (Styled DialogContainer panelAttrs kids)) ->
      ~ In n (visibleBoxes (Dialog.render (Dialog.destructure pNoBackdrop))).
Proof.
  apply (hidden_backdrop_hides_whole_dialog pNoBackdrop); reflexivity.
Defined.

(** C10: while the component is mounted with open=false, an Escape keydown
    on the document never calls [onClose]: a handler is registered, but it
    captured open=false and its guard requires open. This holds after any
    sequence of renders, the latest of which is closed. *)
Theorem closed_dialog_ignores_escape
  (s0 : string) (p0 : Props.t) (ps : list Props.t) :
  Dialog.open (current p0 ps) = false ->
  (exists h, keydown_listeners (finalWorld s0 p0 ps) = [h] /\ k_open h = false) /\
  dispatchKeyDown "Escape" (finalWorld s0 p0 ps) = [].
Proof.
  intros Ho. split.
  - destruct (lifecycle_Mounted s0 p0 ps) as [r Hl _ _ _ _ _].
    exists (ownListener (current p0 ps) r). split; [exact Hl|exact Ho].
  - rewrite lifecycle_keydown, Ho. now rewrite andb_false_r.
Qed.

Lemma closed_dialog_ignores_escape_witness :
  (exists h,
     keydown_listeners (finalWorld "" pOpen [pClosed]) = [h] /\
     k_open h = false) /\
  dispatchKeyDown "Escape" (finalWorld "" pOpen [pClosed]) = [].
Proof.
  apply (closed_dialog_ignores_escape "" pOpen [pClosed]). reflexivity.
Defined.

(** * Further properties *)

(** ** Panel dimensions *)

(** X1: [fullWidth] has no effect on the fullscreen styles; with [fullWidth]
    set, small, medium and large give one and the same style object; without
    it, the four sizes give four different ones. *)
Theorem getSizeStyles_fullWidth_and_size :
  (forall fw, getSizeStyles fullscreen fw = getSizeStyles fullscreen None) /\
  (forall s s',
     s <> fullscreen -> s' <> fullscreen ->
     getSizeStyles s (Some true) = getSizeStyles s' (Some true)) /\
  (forall s s' fw,
     truthyFlag fw = false ->
     getSizeStyles s fw = getSizeStyles s' fw -> s = s').
Proof.
  repeat split.
  - intros s s' Hs Hs'. destruct s, s'; try reflexivity; congruence.
  - intros s s' fw Hfw. unfold getSizeStyles. rewrite Hfw.
    destruct s, s'; intros H; try reflexivity; discriminate H.
Qed.

Lemma getSizeStyles_fullWidth_and_size_witness :
  getSizeStyles small (Some true) = getSizeStyles large (Some true) /\
  (getSizeStyles small None = getSizeStyles medium None -> small = medium).
Proof.
  destruct getSizeStyles_fullWidth_and_size as (_ & H2 & H3).
  split.
  - apply H2; discriminate.
  - apply H3. reflexivity.
Defined.


(** ** Scroll lock *)

Lemma updates_locked_hidden ps : forall p st,
  Mounted (Dialog.destructure p) st ->
  (scrollLocked p && Props.open p = true ->
   body_overflow (snd st) = "hidden") ->
  scrollLocked (latest p ps) && Props.open (latest p ps) = true ->
  body_overflow (snd (Dialog.updates ps st)) = "hidden".
Proof.
  induction ps as [|q ps IH]; intros p [f w] Hm Hov Hl; simpl in *; auto.
  apply (IH q); auto.
  - now apply update_Mounted with (b := Dialog.destructure p).
  - intros Hq.
    rewrite (update_overflow (Dialog.destructure p)) by assumption.
    destruct (Dialog.scroll_deps_eq _ _) eqn:E.
    + apply scroll_deps_eq_true in E as [Eo Ed]. apply Hov.
      unfold scrollLocked in *. simpl in Eo. now rewrite Eo, Ed.
    + unfold scrollLocked in Hq. simpl in Hq |- *. now rewrite Hq.
Qed.

(** X3: whenever the latest render is open with disableBodyScroll enabled,
    the body overflow is "hidden", whatever the earlier renders were
    (disableBodyScroll may have been switched off and on in between). *)
Theorem open_scroll_locked_dialog_hides_overflow
  (s0 : string) (p0 : Props.t) (ps : list Props.t) :
  scrollLocked (latest p0 ps) = true ->
  Props.open (latest p0 ps) = true ->
  body_overflow (finalWorld s0 p0 ps) = "hidden".
Proof.
  intros Hl Ho. unfold finalWorld, Dialog.lifecycle.
  apply updates_locked_hidden with (p := p0).
  - now apply mount_Mounted.
  - intros H. rewrite mount_overflow. unfold scrollLocked in H.
    change (Dialog.open (Dialog.destructure p0)) with (Props.open p0).
    now rewrite H.
  - now rewrite Hl, Ho.
Qed.

Lemma open_scroll_locked_dialog_hides_overflow_witness :
  body_overflow (finalWorld "scroll" pFreeOpen [pFreeClosed; pOpen]) = "hidden".
Proof.
  apply (open_scroll_locked_dialog_hides_overflow
           "scroll" pFreeOpen [pFreeClosed; pOpen]); reflexivity.
Defined.

Lemma updates_scrollFree ps : forall p st,
  Mounted (Dialog.destructure p) st ->
  scrollFree p = true ->
  forallb scrollFree ps = true ->
  body_overflow (snd (Dialog.updates ps st)) = body_overflow (snd st) /\
  scrollFree (latest p ps) = true.
Proof.
  induction ps as [|q ps IH]; intros p [f w] Hm Hp Hps; simpl in *; auto.
  apply andb_true_iff in Hps as [Hq Hps].
  destruct (IH q (Dialog.update (Dialog.destructure q) f w)) as [E L]; auto.
  - now apply update_Mounted with (b := Dialog.destructure p).
  - split; auto. rewrite E.
    rewrite (update_overflow (Dialog.destructure p)) by assumption.
    unfold scrollFree, scrollLocked in Hp, Hq.
    apply negb_true_iff in Hp, Hq. rewrite Hp, Hq.
    now destruct (Dialog.scroll_deps_eq _ _).
Qed.

(** X4: with disableBodyScroll off in every render, the dialog never writes
    the body overflow: not when opening, not when closing, not on unmount. *)
Theorem scroll_lock_disabled_leaves_overflow_alone
  (s0 : string) (p0 : Props.t) (ps : list Props.t) :
  forallb scrollFree (p0 :: ps) = true ->
  body_overflow (finalWorld s0 p0 ps) = s0 /\
  body_overflow (afterUnmount s0 p0 ps) = s0.
Proof.
  intros H. simpl in H. apply andb_true_iff in H as [H0 Hps].
  assert (Hm : Mounted (Dialog.destructure p0)
                 (Dialog.mount (Dialog.destructure p0) (newWorld s0)))
    by now apply mount_Mounted.
  destruct (updates_scrollFree ps p0 _ Hm H0 Hps) as [E L].
  assert (Ef : body_overflow (finalWorld s0 p0 ps) = s0).
  { unfold finalWorld, Dialog.lifecycle. rewrite E, mount_overflow.
    unfold scrollFree, scrollLocked in H0. apply negb_true_iff in H0.
    now rewrite H0. }
  split; [exact Ef|].
  unfold afterUnmount.
  destruct (lifecycle_Mounted s0 p0 ps) as [r _ Hc _ _ _ Hsc].
  unfold Dialog.unmount. rewrite Hc, Hsc.
  unfold scrollFree, scrollLocked in L. apply negb_true_iff in L.
  unfold current. rewrite L. exact Ef.
Qed.

Lemma scroll_lock_disabled_leaves_overflow_alone_witness :
  body_overflow (finalWorld "scroll" pFreeClosed [pFreeOpen; pFreeClosed])
    = "scroll" /\
  body_overflow (afterUnmount "scroll" pFreeClosed [pFreeOpen; pFreeClosed])
    = "scroll".
Proof.
  apply (scroll_lock_disabled_leaves_overflow_alone
           "scroll" pFreeClosed [pFreeOpen; pFreeClosed]).
  reflexivity.
Defined.

(** X5: unmounting removes the dialog's keydown listener, so that no key
    calls [onClose] afterwards; and if disableBodyScroll was enabled in the
    latest render it sets the body overflow to the empty string, even when
    the dialog was never open. *)
Theorem unmount_removes_listener_and_clears_overflow
  (s0 : string) (p0 : Props.t) (ps : list Props.t) :
  keydown_listeners (afterUnmount s0 p0 ps) = [] /\
  (forall key, dispatchKeyDown key (afterUnmount s0 p0 ps) = []) /\
  body_overflow (afterUnmount s0 p0 ps) =
    (if scrollLocked (latest p0 ps) then ""
     else body_overflow (finalWorld s0 p0 ps)).
Proof.
  assert (Hl : keydown_listeners (afterUnmount s0 p0 ps) = [])
    by apply unmount_removes_listener.
  split; [exact Hl|]. split.
  - intros key. unfold dispatchKeyDown. now rewrite Hl.
  - unfold afterUnmount.
    destruct (lifecycle_Mounted s0 p0 ps) as [r _ Hc _ _ _ Hsc].
    unfold Dialog.unmount. rewrite Hc, Hsc.
    unfold scrollLocked, current.
    now destruct (Dialog.disableBodyScroll (Dialog.destructure (latest p0 ps))).
Qed.

(** ** Keys and clicks *)

(** X6: a key other than "Escape" (the comparison is exact, so "Esc" or
    "escape" count as other keys) never makes the dialog call [onClose],
    open or closed, whatever the configuration. *)
Theorem other_keys_never_call_onClose
  (s0 : string) (p0 : Props.t) (ps : list Props.t) (key : string) :
  key <> "Escape" ->
  dispatchKeyDown key (finalWorld s0 p0 ps) = [].
Proof.
  intros Hk. rewrite lifecycle_keydown.
  apply String.eqb_neq in Hk. rewrite Hk.
  now rewrite andb_false_r.
Qed.

Lemma other_keys_never_call_onClose_witness :
  dispatchKeyDown "Esc" (finalWorld "" pOpen []) = [].
Proof.
  apply (other_keys_never_call_onClose "" pOpen [] "Esc"). discriminate.
Defined.

(** X7: an open dialog with showCloseButton, closeOnOutsideClick and
    closeOnEscape all off never calls [onClose] through its own handlers: no
    key and no click on any of its elements does. *)
Theorem no_dismissal_with_all_triggers_off
  (s0 : string) (p0 : Props.t) (ps : list Props.t) :
  Dialog.open (current p0 ps) = true ->
  Dialog.showCloseButton (current p0 ps) = false ->
  Dialog.closeOnOutsideClick (current p0 ps) = false ->
  Dialog.closeOnEscape (current p0 ps) = false ->
  (forall key, dispatchKeyDown key (finalWorld s0 p0 ps) = []) /\
  (forall path tr,
     dispatchClick (Dialog.render (current p0 ps)) path = Some tr -> tr = []).
Proof.
  intros Ho Hs Hc He. split.
  - intros key. rewrite lifecycle_keydown, He. reflexivity.
  - intros path tr H. apply click_calls in H; [|exact Ho].
    destruct H as [[_ ->]|[(_ & Hs' & _)|(_ & _ & ->)]]; auto.
    + now rewrite Hc.
    + congruence.
Qed.

Lemma no_dismissal_with_all_triggers_off_witness :
  (forall key, dispatchKeyDown key (finalWorld "" pModal []) = []) /\
  (forall path tr,
     dispatchClick (Dialog.render (current pModal [])) path = Some tr ->
     tr = []).
Proof.
  apply (no_dismissal_with_all_triggers_off "" pModal []); reflexivity.
Defined.


(** ** Other listeners on the document *)

Lemma others_not_own b r others :
  Forall (fun h => fn_ref h < r) others ->
  existsb (same_fn (ownListener b r)) others = false /\
  filter (fun h' => negb (same_fn (ownListener b r) h'))
         (others ++ [ownListener b r]) = others.
Proof.
  induction 1 as [|h others Hh _ [IH1 IH2]]; simpl.
  - now rewrite same_fn_refl.
  - assert (E : same_fn (ownListener b r) h = false).
    { unfold same_fn. simpl. apply Nat.eqb_neq. lia. }
    rewrite E. simpl. now rewrite IH1, IH2.
Qed.

Lemma keyEffect_among b w :
  wellFormed w = true ->
  Dialog.keyEffect b w =
    ({| body_overflow := body_overflow w;
        keydown_listeners := keydown_listeners w ++ [ownListener b (next_ref w)];
        next_ref := S (next_ref w) |},
     removeKeyDown (ownListener b (next_ref w))).
Proof.
  intros H. unfold Dialog.keyEffect, addEventListener; simpl.
  assert (Hf : Forall (fun h => fn_ref h < next_ref w) (keydown_listeners w)).
  { apply Forall_forall. intros h Hh.
    unfold wellFormed in H. rewrite forallb_forall in H.
    now apply Nat.ltb_lt, H. }
  destruct (others_not_own b (next_ref w) _ Hf) as [E _].
  unfold ownListener in E. now rewrite E.
Qed.

Lemma mount_MountedAmong b w :
  wellFormed w = true ->
  MountedAmong (keydown_listeners w) b (Dialog.mount b w).
Proof.
  intros H. unfold Dialog.mount.
  destruct (Dialog.scrollEffect b w) as [w1 c1] eqn:E1.
  pose proof (scrollEffect_listeners b w) as [Hl Hn].
  rewrite E1 in Hl, Hn; simpl in Hl, Hn.
  assert (H1 : wellFormed w1 = true)
    by (unfold wellFormed; now rewrite Hl, Hn).
  rewrite keyEffect_among by assumption.
  apply (MountedAmongAs _ _ _ (next_ref w1)); simpl; auto.
  - now rewrite Hl.
  - apply Forall_forall. intros h Hh.
    unfold wellFormed in H. rewrite forallb_forall in H.
    rewrite Hn. now apply Nat.ltb_lt, H.
  - unfold Dialog.scrollEffect in E1. now inversion E1.
Qed.

Lemma update_MountedAmong others b b' f w :
  MountedAmong others b (f, w) ->
  MountedAmong others b' (Dialog.update b' f w).
Proof.
  intros [r Hl Hc Hr Ho Hkd Hsd Hsc]; simpl in *.
  unfold Dialog.update. rewrite Hkd, Hsd, Hsc, Hc.
  set (w1 := if negb _ then runCleanup (clearOverflow _) w else w).
  assert (H1 : keydown_listeners w1 = keydown_listeners w /\
               next_ref w1 = next_ref w).
  { subst w1. destruct (negb _); auto using clearOverflow_listeners. }
  destruct H1 as [H1l H1n].
  destruct (Dialog.key_deps_eq (Dialog.keyDeps b) (Dialog.keyDeps b')) eqn:Ek;
    simpl.
  - set (s3 := if negb _ then Dialog.scrollEffect b' w1 else (w1, _)).
    assert (H3 : keydown_listeners (fst s3) = keydown_listeners w /\
                 next_ref (fst s3) = next_ref w /\
                 snd s3 = clearOverflow (Dialog.disableBodyScroll b')).
    { subst s3. destruct (negb _) eqn:En.
      - destruct (scrollEffect_listeners b' w1) as [-> ->]. auto.
      - simpl. repeat split; auto.
        apply negb_false_iff, scroll_deps_eq_true in En as [_ ->]. auto. }
    destruct s3 as [w3 c1]; simpl in H3. destruct H3 as (H3l & H3n & ->).
    apply (MountedAmongAs _ _ _ r); simpl; auto; try congruence.
    + rewrite H3l, Hl. do 2 f_equal. now apply key_deps_eq_true.
    + f_equal. now apply key_deps_eq_true.
  - set (w2 := removeEventListener (ownListener b r) w1).
    assert (H2 : keydown_listeners w2 = others /\ next_ref w2 = next_ref w).
    { subst w2; simpl. rewrite H1l, Hl. split; auto.
      now apply others_not_own. }
    destruct H2 as [H2l H2n].
    set (s3 := if negb _ then Dialog.scrollEffect b' w2 else (w2, _)).
    assert (H3 : keydown_listeners (fst s3) = others /\
                 next_ref (fst s3) = next_ref w /\
                 snd s3 = clearOverflow (Dialog.disableBodyScroll b')).
    { subst s3. destruct (negb _) eqn:En.
      - destruct (scrollEffect_listeners b' w2) as [-> ->]. auto.
      - simpl. repeat split; auto.
        apply negb_false_iff, scroll_deps_eq_true in En as [_ ->]. auto. }
    destruct s3 as [w3 c1]; simpl in H3. destruct H3 as (H3l & H3n & ->).
    assert (Hf : Forall (fun h => fn_ref h < next_ref w3) others).
    { rewrite H3n. eapply Forall_impl; [|exact Ho]. simpl. intros; lia. }
    destruct (others_not_own b' (next_ref w3) _ Hf) as [E _].
    unfold addEventListener; simpl. rewrite H3l.
    unfold ownListener in E. rewrite E.
    apply (MountedAmongAs _ _ _ (next_ref w3)); simpl; auto.
Qed.

Lemma lifecycle_MountedAmong w p0 ps :
  wellFormed w = true ->
  MountedAmong (keydown_listeners w) (current p0 ps) (Dialog.lifecycle p0 ps w).
Proof.
  intros H. unfold Dialog.lifecycle, current.
  generalize (mount_MountedAmong (Dialog.destructure p0) w H).
  generalize (Dialog.mount (Dialog.destructure p0) w).
  generalize (keydown_listeners w) as others.
  revert p0. induction ps as [|q ps IH]; intros p0 others [f w0] Hm; simpl; auto.
  apply IH. now apply update_MountedAmong with (b := Dialog.destructure p0).
Qed.

(** X9: in a document where other code has keydown listeners, the dialog
    leaves them registered and in order through any sequence of renders, its
    own single listener coming after them; a key event runs the others as
    before and then the dialog's guard; and unmounting brings the listener
    list back to what it was before the mount. *)
Theorem other_keydown_listeners_kept_and_restored
  (w : World) (p0 : Props.t) (ps : list Props.t) :
  wellFormed w = true ->
  (exists h,
     keydown_listeners (snd (Dialog.lifecycle p0 ps w)) =
       (keydown_listeners w ++ [h])%list) /\
  (forall key,
     dispatchKeyDown key (snd (Dialog.lifecycle p0 ps w)) =
       (dispatchKeyDown key w
        ++ (if Dialog.closeOnEscape (current p0 ps) && String.eqb key "Escape"
               && Dialog.open (current p0 ps)
            then [Dialog.onClose (current p0 ps)] else []))%list) /\
  keydown_listeners
    (Dialog.unmount (fst (Dialog.lifecycle p0 ps w))
                    (snd (Dialog.lifecycle p0 ps w))) =
    keydown_listeners w.
Proof.
  intros H.
  destruct (lifecycle_MountedAmong w p0 ps H) as [r Hl Hc Hr Ho _ _ Hsc].
  repeat split.
  - now exists (ownListener (current p0 ps) r).
  - intros key. unfold dispatchKeyDown. rewrite Hl, flat_map_app. simpl.
    now rewrite app_nil_r.
  - unfold Dialog.unmount. rewrite Hc, Hsc.
    cbn [runCleanup removeEventListener keydown_listeners].
    destruct (clearOverflow_listeners (Dialog.disableBodyScroll (current p0 ps))
                (snd (Dialog.lifecycle p0 ps w))) as [E _].
    cbn [runCleanup] in E. rewrite E, Hl.
    now apply others_not_own.
Qed.

Lemma other_keydown_listeners_kept_and_restored_witness :
  keydown_listeners
    (Dialog.unmount (fst (Dialog.lifecycle pClosed [pOpen; pClosed] wBusy))
                    (snd (Dialog.lifecycle pClosed [pOpen; pClosed] wBusy))) =
    keydown_listeners wBusy.
Proof.
  apply (other_keydown_listeners_kept_and_restored wBusy pClosed [pOpen; pClosed]).
  reflexivity.
Defined.

(** ** Commits *)

Lemma update_cleanups_then_effects b f w :
  Dialog.update b f w = Commit.effects b f (Commit.cleanups b f w).
Proof. reflexivity. Qed.

(** ** The InteractiveDialog story *)

Lemma interactive_invariant s0 es :
  Mounted (Dialog.destructure
             (InteractiveDialog.dialogProps
                (InteractiveDialog.isOpen (InteractiveDialog.run s0 es))
                (InteractiveDialog.renders (InteractiveDialog.run s0 es))))
          (InteractiveDialog.fiber (InteractiveDialog.run s0 es),
           InteractiveDialog.world (InteractiveDialog.run s0 es)) /\
  body_overflow (InteractiveDialog.world (InteractiveDialog.run s0 es)) =
    (if InteractiveDialog.isOpen (InteractiveDialog.run s0 es) then "hidden"
     else if Nat.eqb (InteractiveDialog.renders (InteractiveDialog.run s0 es)) 0
          then s0 else "").
Proof.
  unfold InteractiveDialog.run.
  assert (H0 :
    Mounted (Dialog.destructure
               (InteractiveDialog.dialogProps
                  (InteractiveDialog.isOpen (InteractiveDialog.initial s0))
                  (InteractiveDialog.renders (InteractiveDialog.initial s0))))
            (InteractiveDialog.fiber (InteractiveDialog.initial s0),
             InteractiveDialog.world (InteractiveDialog.initial s0)) /\
    body_overflow (InteractiveDialog.world (InteractiveDialog.initial s0)) =
      (if InteractiveDialog.isOpen (InteractiveDialog.initial s0) then "hidden"
       else if Nat.eqb (InteractiveDialog.renders (InteractiveDialog.initial s0)) 0
            then s0 else "")).
  { split.
    - unfold InteractiveDialog.initial. simpl InteractiveDialog.isOpen.
      simpl InteractiveDialog.renders.
      cbn [InteractiveDialog.fiber InteractiveDialog.world].
      rewrite <- surjective_pairing. now apply mount_Mounted.
    - reflexivity. }
  revert H0. generalize (InteractiveDialog.initial s0).
  induction es as [|e es IH]; intros h Hh; simpl; auto.
  apply IH. clear IH. destruct Hh as [Hm Hov].
  unfold InteractiveDialog.step.
  destruct (Bool.eqb _ (InteractiveDialog.isOpen h)) eqn:E; [now split|].
  set (o := InteractiveDialog.reduce _ _) in *.
  unfold InteractiveDialog.rerender.
  cbn [InteractiveDialog.isOpen InteractiveDialog.renders
       InteractiveDialog.fiber InteractiveDialog.world].
  split.
  - rewrite <- surjective_pairing. eapply update_Mounted; eauto.
  - erewrite update_overflow by eauto.
    destruct o, (InteractiveDialog.isOpen h); try discriminate; reflexivity.
Qed.

Lemma interactive_keydown s0 es key :
  dispatchKeyDown key (InteractiveDialog.world (InteractiveDialog.run s0 es)) =
  if String.eqb key "Escape"
     && InteractiveDialog.isOpen (InteractiveDialog.run s0 es)
  then [InteractiveDialog.handleClose
          (InteractiveDialog.renders (InteractiveDialog.run s0 es))]
  else [].
Proof.
  destruct (interactive_invariant s0 es) as [[r Hl _ _ _ _ _] _].
  simpl in Hl. unfold dispatchKeyDown. rewrite Hl. simpl.
  unfold handleKeyDown. simpl. now rewrite app_nil_r.
Qed.

(** X10: the InteractiveDialog story as a state machine. After any sequence
    of events, the next event leaves the dialog open exactly as follows:
    "Open Dialog" opens it; an open dialog is closed by Escape, by a click
    on the backdrop itself, on the close button, or on Cancel or Confirm,
    and by nothing else; a closed dialog stays closed under every key and
    dialog click. *)
Theorem interactive_dialog_transitions
  (s0 : string) (es : list InteractiveDialog.Event) (e : InteractiveDialog.Event) :
  InteractiveDialog.isOpen
    (InteractiveDialog.step (InteractiveDialog.run s0 es) e) =
  match e with
  | InteractiveDialog.ClickOpenDialog => true
  | _ => InteractiveDialog.isOpen (InteractiveDialog.run s0 es)
         && negb (InteractiveDialog.dismisses e)
  end.
Proof.
  assert (Hstep : forall h o,
            InteractiveDialog.isOpen
              (if Bool.eqb o (InteractiveDialog.isOpen h) then h
               else InteractiveDialog.rerender h o) = o).
  { intros h o. destruct (Bool.eqb o _) eqn:E; [|reflexivity].
    now apply Bool.eqb_prop in E. }
  unfold InteractiveDialog.step. rewrite Hstep.
  set (h := InteractiveDialog.run s0 es).
  destruct e as [|key|path]; cbn [InteractiveDialog.setIsOpenCalls].
  - reflexivity.
  - subst h. rewrite interactive_keydown.
    set (h := InteractiveDialog.run s0 es).
    unfold InteractiveDialog.dismisses.
    destruct (String.eqb key "Escape"), (InteractiveDialog.isOpen h); reflexivity.
  - unfold InteractiveDialog.rendered.
    destruct (InteractiveDialog.isOpen h) eqn:Eo.
    + destruct (dispatchClick _ path) as [tr|] eqn:Ec.
      * apply click_calls in Ec; [|reflexivity].
        unfold InteractiveDialog.dismisses.
        destruct Ec as [[-> ->]|[(-> & _ & ->)|(Hb & Hc & ->)]];
          try reflexivity.
        assert (Eb : pathEqb path backdropPath = false)
          by (unfold pathEqb; now destruct (list_eq_dec _ _ _)).
        assert (Ecb : pathEqb path closeButtonPath = false)
          by (unfold pathEqb; now destruct (list_eq_dec _ _ _)).
        rewrite Eb, Ecb. simpl.
        now destruct (pathEqb path actionsPath).
      * unfold InteractiveDialog.dismisses, InteractiveDialog.reduce.
        simpl fold_left.
        unfold pathEqb.
        destruct (list_eq_dec _ path backdropPath) as [->|_];
          [discriminate Ec|].
        destruct (list_eq_dec _ path closeButtonPath) as [->|_];
          [discriminate Ec|].
        destruct (list_eq_dec _ path actionsPath) as [->|_];
          [discriminate Ec|].
        reflexivity.
    + reflexivity.
Qed.

(** X11: in the InteractiveDialog story, after any sequence of events the
    body overflow is "hidden" exactly while the dialog is open (and the
    empty string while it is closed, once it has been opened); the dialog
    renders nothing while closed, and the document holds one keydown
    listener, that of the latest render. *)
Theorem interactive_dialog_scroll_lock_follows_isOpen
  (s0 : string) (es : list InteractiveDialog.Event) :
  body_overflow (InteractiveDialog.world (InteractiveDialog.run s0 es)) =
    (if InteractiveDialog.isOpen (InteractiveDialog.run s0 es) then "hidden"
     else if Nat.eqb (InteractiveDialog.renders (InteractiveDialog.run s0 es)) 0
          then s0 else "") /\
  (InteractiveDialog.rendered (InteractiveDialog.run s0 es) = RenderNull <->
   InteractiveDialog.isOpen (InteractiveDialog.run s0 es) = false) /\
  exists r,
    keydown_listeners (InteractiveDialog.world (InteractiveDialog.run s0 es)) =
    [{| fn_ref := r; k_closeOnEscape := true;
        k_open := InteractiveDialog.isOpen (InteractiveDialog.run s0 es);
        k_onClose := InteractiveDialog.handleClose
                       (InteractiveDialog.renders (InteractiveDialog.run s0 es)) |}].
Proof.
  destruct (interactive_invariant s0 es) as [[r Hl _ _ _ _ _] Hov].
  split; [exact Hov|]. split.
  - unfold InteractiveDialog.rendered, Dialog.render. simpl.
    destruct (InteractiveDialog.isOpen _); simpl; split;
      (reflexivity || discriminate).
  - exists r. exact Hl.
Qed.

(** ** The NestedDialogs story *)

Lemma nested_rerender_world h st :
  NestedDialogs.Inv h ->
  NestedDialogs.Inv (NestedDialogs.rerender h st) /\
  body_overflow (NestedDialogs.world (NestedDialogs.rerender h st)) =
    (if (negb (Bool.eqb (NestedDialogs.isPrimaryOpen h) (fst st)) && fst st)
        || (negb (Bool.eqb (NestedDialogs.isSecondaryOpen h) (snd st)) && snd st)
     then "hidden"
     else if Bool.eqb (NestedDialogs.isPrimaryOpen h) (fst st)
             && Bool.eqb (NestedDialogs.isSecondaryOpen h) (snd st)
          then body_overflow (NestedDialogs.world h)
          else "").
Proof.
  intros (rP & rS & (HPc & HPk & HPs & HPsc) & (HSc & HSk & HSs & HSsc)
          & Hl & Hlt & Hn).
  destruct st as [a b].
  assert (Ep : forall n, Nat.eqb (2 * n) (2 * S n) = false)
    by (intros; apply Nat.eqb_neq; lia).
  assert (Es : forall n, Nat.eqb (2 * n + 1) (2 * S n + 1) = false)
    by (intros; apply Nat.eqb_neq; lia).
  assert (Ers : Nat.eqb rP rS = false) by (apply Nat.eqb_neq; lia).
  assert (Enn : forall n, Nat.eqb (S n) n = false)
    by (intros; apply Nat.eqb_neq; lia).
  unfold NestedDialogs.rerender, Commit.cleanups, Commit.effects,
    Commit.rerunScroll, Commit.rerunKey.
  rewrite HPc, HPk, HPs, HPsc, HSc, HSk, HSs, HSsc.
  unfold Dialog.key_deps_eq, Dialog.scroll_deps_eq, Dialog.keyDeps,
    Dialog.scrollDeps, NestedDialogs.primaryOnClose,
    NestedDialogs.secondaryOnClose.
  cbn [fst snd Dialog.open Dialog.disableBodyScroll Dialog.closeOnEscape
       Dialog.onClose Dialog.destructure NestedDialogs.primaryProps
       NestedDialogs.secondaryProps Props.open Props.disableBodyScroll
       Props.closeOnEscape Props.onClose default
       NestedDialogs.isPrimaryOpen NestedDialogs.isSecondaryOpen
       NestedDialogs.renders NestedDialogs.primary NestedDialogs.secondary
       NestedDialogs.world].
  unfold NestedDialogs.primaryOnClose, NestedDialogs.secondaryOnClose.
  rewrite Ep, Es. rewrite !andb_false_r, !andb_false_l. cbn [negb].
  destruct h as [p s n fP fS w]; cbn [NestedDialogs.isPrimaryOpen
    NestedDialogs.isSecondaryOpen NestedDialogs.renders NestedDialogs.world] in *.
  destruct w as [ov ls nx]; cbn [keydown_listeners next_ref body_overflow] in *.
  subst ls.
  split.
  - unfold NestedDialogs.Inv.
    cbn [NestedDialogs.isPrimaryOpen NestedDialogs.isSecondaryOpen
         NestedDialogs.renders NestedDialogs.primary NestedDialogs.secondary
         NestedDialogs.world fst snd].
    exists nx, (S nx).
    destruct p, s, a, b;
      do 4 (cbn -[Nat.mul Nat.add Nat.eqb]; unfold same_fn, addEventListener;
            rewrite ?Nat.eqb_refl, ?Ers, ?Enn);
      cbn -[Nat.mul Nat.add Nat.eqb];
      (repeat split; try reflexivity; lia).
  - destruct p, s, a, b;
      do 4 (cbn -[Nat.mul Nat.add Nat.eqb]; unfold same_fn, addEventListener;
            rewrite ?Nat.eqb_refl, ?Ers, ?Enn);
      cbn -[Nat.mul Nat.add Nat.eqb]; reflexivity.
Qed.

Lemma nested_invariant s0 es : NestedDialogs.Inv (NestedDialogs.run s0 es).
Proof.
  unfold NestedDialogs.run.
  assert (H0 : NestedDialogs.Inv (NestedDialogs.initial s0)).
  { exists 0, 1. unfold Synced. repeat split; try reflexivity; simpl; lia. }
  revert H0. generalize (NestedDialogs.initial s0).
  induction es as [|e es IH]; intros h Hh; simpl; auto.
  apply IH. unfold NestedDialogs.step.
  destruct (NestedDialogs.stateEqb _ _); auto.
  now apply nested_rerender_world.
Qed.

Lemma nested_step_state h e :
  (NestedDialogs.isPrimaryOpen (NestedDialogs.step h e),
   NestedDialogs.isSecondaryOpen (NestedDialogs.step h e)) =
  NestedDialogs.reduce
    (NestedDialogs.isPrimaryOpen h, NestedDialogs.isSecondaryOpen h)
    (NestedDialogs.setterCalls h e).
Proof.
  unfold NestedDialogs.step.
  destruct (NestedDialogs.stateEqb _ _) eqn:E.
  - unfold NestedDialogs.stateEqb in E.
    apply andb_true_iff in E as [E1 E2].
    apply Bool.eqb_prop in E1, E2. simpl in E1, E2.
    rewrite (surjective_pairing (NestedDialogs.reduce _ _)).
    now rewrite E1, E2.
  - simpl. now rewrite <- surjective_pairing.
Qed.

Lemma nested_onCloseBody n :
  NestedDialogs.onCloseBody (NestedDialogs.primaryOnClose n) =
    NestedDialogs.setPrimaryOpen false /\
  NestedDialogs.onCloseBody (NestedDialogs.secondaryOnClose n) =
    NestedDialogs.setSecondaryOpen false.
Proof.
  unfold NestedDialogs.onCloseBody, NestedDialogs.primaryOnClose,
    NestedDialogs.secondaryOnClose.
  rewrite Nat.even_mul. simpl Nat.even at 1. cbn [orb].
  rewrite Nat.even_add, Nat.even_mul. simpl. auto.
Qed.

Lemma nested_keydown s0 es key :
  dispatchKeyDown key (NestedDialogs.world (NestedDialogs.run s0 es)) =
  ((if String.eqb key "Escape"
       && NestedDialogs.isPrimaryOpen (NestedDialogs.run s0 es)
    then [NestedDialogs.primaryOnClose
            (NestedDialogs.renders (NestedDialogs.run s0 es))]
    else [])
   ++ (if String.eqb key "Escape"
          && NestedDialogs.isSecondaryOpen (NestedDialogs.run s0 es)
       then [NestedDialogs.secondaryOnClose
               (NestedDialogs.renders (NestedDialogs.run s0 es))]
       else []))%list.
Proof.
  destruct (nested_invariant s0 es) as (rP & rS & _ & _ & Hl & _).
  unfold dispatchKeyDown. rewrite Hl. simpl.
  unfold handleKeyDown. simpl. now rewrite app_nil_r.
Qed.

(** X12: in the NestedDialogs story, after any sequence of events, one
    Escape press runs the keydown listeners of both dialogs, calls the
    [onClose] of each dialog that is open, and leaves both dialogs closed:
    Escape does not close only the topmost dialog. *)
Theorem nested_escape_closes_both_dialogs
  (s0 : string) (es : list NestedDialogs.Event) :
  dispatchKeyDown "Escape" (NestedDialogs.world (NestedDialogs.run s0 es)) =
    ((if NestedDialogs.isPrimaryOpen (NestedDialogs.run s0 es)
      then [NestedDialogs.primaryOnClose
              (NestedDialogs.renders (NestedDialogs.run s0 es))]
      else [])
     ++ (if NestedDialogs.isSecondaryOpen (NestedDialogs.run s0 es)
         then [NestedDialogs.secondaryOnClose
                 (NestedDialogs.renders (NestedDialogs.run s0 es))]
         else []))%list /\
  NestedDialogs.isPrimaryOpen
    (NestedDialogs.step (NestedDialogs.run s0 es)
                        (NestedDialogs.KeyDown "Escape")) = false /\
  NestedDialogs.isSecondaryOpen
    (NestedDialogs.step (NestedDialogs.run s0 es)
                        (NestedDialogs.KeyDown "Escape")) = false.
Proof.
  pose proof (nested_keydown s0 es "Escape") as Hk. simpl String.eqb in Hk.
  cbn [andb] in Hk. split; [exact Hk|].
  pose proof (nested_step_state (NestedDialogs.run s0 es)
                (NestedDialogs.KeyDown "Escape")) as Hs.
  cbn [NestedDialogs.setterCalls] in Hs. rewrite Hk in Hs.
  destruct (nested_onCloseBody
              (NestedDialogs.renders (NestedDialogs.run s0 es))) as [EP ES].
  destruct (NestedDialogs.isPrimaryOpen (NestedDialogs.run s0 es)),
           (NestedDialogs.isSecondaryOpen (NestedDialogs.run s0 es));
    cbn [app map] in Hs; rewrite ?EP, ?ES in Hs;
    cbn in Hs; injection Hs as -> ->; auto.
Qed.

(** X13: in the NestedDialogs story, when both dialogs are open and the
    secondary one is closed by its close button or by a click on its
    backdrop, the body overflow becomes the empty string although the
    primary dialog is still open with disableBodyScroll enabled: each
    dialog's cleanup clears the style without regard to the other. *)
Theorem nested_closing_secondary_unlocks_scroll
  (s0 : string) (es : list NestedDialogs.Event) (path : list nat) :
  NestedDialogs.isPrimaryOpen (NestedDialogs.run s0 es) = true ->
  NestedDialogs.isSecondaryOpen (NestedDialogs.run s0 es) = true ->
  path = backdropPath \/ path = closeButtonPath ->
  NestedDialogs.isPrimaryOpen
    (NestedDialogs.step (NestedDialogs.run s0 es)
                        (NestedDialogs.ClickSecondary path)) = true /\
  NestedDialogs.isSecondaryOpen
    (NestedDialogs.step (NestedDialogs.run s0 es)
                        (NestedDialogs.ClickSecondary path)) = false /\
  scrollLocked
    (NestedDialogs.primaryProps true
       (NestedDialogs.renders
          (NestedDialogs.step (NestedDialogs.run s0 es)
                              (NestedDialogs.ClickSecondary path)))) = true /\
  body_overflow
    (NestedDialogs.world
       (NestedDialogs.step (NestedDialogs.run s0 es)
                           (NestedDialogs.ClickSecondary path))) = "".
Proof.
  intros HP HS Hpath.
  set (h := NestedDialogs.run s0 es) in *.
  assert (Hcalls : NestedDialogs.setterCalls h (NestedDialogs.ClickSecondary path)
                   = [NestedDialogs.setSecondaryOpen false]).
  { cbn [NestedDialogs.setterCalls]. unfold NestedDialogs.renderedSecondary.
    rewrite HS.
    destruct (nested_onCloseBody (NestedDialogs.renders h)) as [_ ES].
    destruct Hpath as [-> | ->]; cbn [dispatchClick]; simpl; now rewrite ES. }
  assert (Hstep : NestedDialogs.step h (NestedDialogs.ClickSecondary path) =
                  NestedDialogs.rerender h (true, false)).
  { unfold NestedDialogs.step. rewrite Hcalls, HP, HS. reflexivity. }
  rewrite Hstep.
  destruct (nested_rerender_world h (true, false)) as [_ Hov].
  { apply nested_invariant. }
  rewrite HP, HS in Hov. simpl in Hov.
  repeat split; auto.
Qed.

Lemma nested_closing_secondary_unlocks_scroll_witness :
  body_overflow
    (NestedDialogs.world
       (NestedDialogs.step
          (NestedDialogs.run ""
             [NestedDialogs.ClickOpenPrimary; NestedDialogs.ClickOpenSecondary])
          (NestedDialogs.ClickSecondary closeButtonPath))) = "".
Proof.
  apply (nested_closing_secondary_unlocks_scroll ""
           [NestedDialogs.ClickOpenPrimary; NestedDialogs.ClickOpenSecondary]
           closeButtonPath); auto.
Defined.

(** The play function of InteractiveDialogWithCloseButton: open the dialog,
    then click its close button. *)
Example interactive_play_with_close_button :
  InteractiveDialog.isOpen
    (InteractiveDialog.run ""
       [InteractiveDialog.ClickOpenDialog]) = true /\
  InteractiveDialog.isOpen
    (InteractiveDialog.run ""
       [InteractiveDialog.ClickOpenDialog;
        InteractiveDialog.Click closeButtonPath]) = false.
Proof. split; reflexivity. Qed.

Example nested_open_both_then_close_secondary :
  body_overflow
    (NestedDialogs.world
       (NestedDialogs.run ""
          [NestedDialogs.ClickOpenPrimary; NestedDialogs.ClickOpenSecondary]))
    = "hidden" /\
  keydown_listeners
    (NestedDialogs.world
       (NestedDialogs.run ""
          [NestedDialogs.ClickOpenPrimary; NestedDialogs.ClickOpenSecondary;
           NestedDialogs.ClickSecondary backdropPath])) =
    [{| fn_ref := 6; k_closeOnEscape := true; k_open := true; k_onClose := 6 |};
     {| fn_ref := 7; k_closeOnEscape := true; k_open := false; k_onClose := 7 |}].
Proof. split; reflexivity. Qed.

(** ** Re-registration of the keydown listener *)

Lemma update_listeners b b' f w :
  Mounted b (f, w) ->
  keydown_listeners (snd (Dialog.update b' f w)) =
  if Dialog.key_deps_eq (Dialog.keyDeps b) (Dialog.keyDeps b')
  then keydown_listeners w
  else [ownListener b' (next_ref w)].
Proof.
  intros [r Hl Hc Hr Hkd Hsd Hsc]; simpl in *.
  unfold Dialog.update. rewrite Hkd, Hsd, Hsc, Hc.
  destruct w as [ov ls nx]; simpl in *. subst ls.
  destruct (Dialog.key_deps_eq _ _);
    destruct (Dialog.scroll_deps_eq _ _);
    destruct (Dialog.disableBodyScroll b);
    unfold Dialog.scrollEffect;
    destruct (Dialog.disableBodyScroll b' && Dialog.open b');
    simpl; unfold addEventListener; simpl;
    rewrite ?same_fn_refl; simpl; reflexivity.
Qed.

(** X14: a re-render registers a new keydown listener exactly when
    closeOnEscape, onClose or open changed (onClose by reference): then the
    old listener is replaced by a fresh function holding the new values;
    when only other props changed (title, size, children, ...), the
    registered listener stays the same function. *)
Theorem listener_replaced_only_when_key_deps_change
  (s0 : string) (p0 : Props.t) (ps : list Props.t) (q : Props.t) :
  keydown_listeners (finalWorld s0 p0 (ps ++ [q])) =
  if Dialog.key_deps_eq (Dialog.keyDeps (current p0 ps))
                        (Dialog.keyDeps (Dialog.destructure q))
  then keydown_listeners (finalWorld s0 p0 ps)
  else [ownListener (Dialog.destructure q) (next_ref (finalWorld s0 p0 ps))].
Proof.
  pose proof (lifecycle_Mounted s0 p0 ps) as Hm.
  unfold finalWorld, Dialog.lifecycle in *. rewrite updates_app. simpl.
  destruct (Dialog.updates ps _) as [f w]. simpl.
  now apply update_listeners.
Qed.
